(** * TikTok Clipper: segmentation, reframing and task lifecycle

    A shallow embedding of [app.py] (the web worker, class [TikTokClipper]
    with its task registry [tasks]) and of the planning loop it shares with
    [clipper.py], followed by the properties of the segment planner, the
    geometry transform and the task state machine.

    Numbers.  Python [int] is [Z].  Python [float] (the video duration, the
    aspect ratios, the progress fraction) is idealised as an exact rational
    [Q]: rounding of IEEE doubles is not modelled.  [int(x)] truncates
    towards zero, [math.ceil] is the ceiling, [a / b] raises
    [ZeroDivisionError] on a zero divisor.  Where a double product falls
    just below an integer that the exact value reaches, [int] of it is
    one less in the code than here; the general statements about progress
    therefore give its range and its order, not its values. *)

From Stdlib Require Import ZArith QArith Qround Qminmax Lqa Lia List String Ascii.
From Stdlib Require Import DecimalString DecimalPos DecimalN.
From stdpp Require Import gmap strings list fin_maps.

Local Open Scope Z_scope.

(** ** Exceptions and results *)

Inductive exn : Type :=
| ZeroDivisionError
| DownloadError (msg : string)   (* raised by yt_dlp *)
| CodecError (msg : string)      (* raised by moviepy / ffmpeg *)
| OSError (msg : string).        (* raised by os.remove and mkdir *)

Inductive outcome (A : Type) : Type :=
| Ret (a : A)
| Raise (e : exn).
Arguments Ret {A} a.
Arguments Raise {A} e.

#[global] Instance outcome_ret : MRet outcome := fun _ a => Ret a.
#[global] Instance outcome_bind : MBind outcome := fun _ _ f m =>
  match m with
  | Ret a => f a
  | Raise e => Raise e
  end.

(** ** Python arithmetic *)

Module Py.

(** [a < b] on numbers. *)
Definition lt (a b : Q) : bool := negb (Qle_bool b a).

(** [a / b], true division. *)
Definition truediv (a b : Q) : outcome Q :=
  if Qeq_bool b 0 then Raise ZeroDivisionError else Ret (a / b)%Q.

(** [int(x)]: truncation towards zero. *)
Definition int (x : Q) : Z := Z.quot (Qnum x) (Zpos (Qden x)).

(** [math.ceil(x)]. *)
Definition ceil (x : Q) : Z := Qceiling x.

(** [min(a, b)]: the first argument unless the second is smaller. *)
Definition min (a b : Q) : Q := if lt b a then b else a.

(** [range(n)]: empty when [n <= 0]. *)
Definition range (n : Z) : list Z := map Z.of_nat (seq 0 (Z.to_nat n)).

(** [f"{z:03d}"]: decimal, zero-padded to width 3, the sign counted in
    the width. *)
Definition digits (z : Z) : string :=
  NilZero.string_of_uint (N.to_uint (Z.abs_N z)).

Fixpoint zeros (n : nat) : string :=
  match n with
  | O => EmptyString
  | S n' => String "0" (zeros n')
  end.

Definition format_03d (z : Z) : string :=
  let d := digits z in
  if z <? 0
  then String "-" (zeros (2 - String.length d) ++ d)
  else zeros (3 - String.length d) ++ d.

End Py.

(** ** Geometry transform: [TikTokClipper.resize_to_tiktok_format]

    The method receives a clip, reads [clip.size] and issues one [crop]
    call followed by one [resize] call.  The result records the keyword
    arguments of that [crop] call, which has either [x1]/[width]
    (horizontal crop, the vertical extent is not passed, so the full height
    is kept) or [y1]/[height] (vertical crop, full width kept), and the
    argument of [resize]. *)

Inductive crop : Type :=
| CropX (x1 width : Z)     (* clip.crop(x1=x1, width=new_width) *)
| CropY (y1 height : Z).   (* clip.crop(y1=y1, height=new_height) *)

Record transform : Type := mkTransform {
  tr_crop : crop;
  tr_resize : Z * Z
}.

Definition resize_to_tiktok_format (size : Z * Z) : outcome transform :=
  let target_width := 1080 in
  let target_height := 1920 in
  let '(w, h) := size in
  current_ratio ← Py.truediv (inject_Z w) (inject_Z h);
  target_ratio ← Py.truediv (inject_Z target_width) (inject_Z target_height);
  if Py.lt target_ratio current_ratio then
    let new_width := Py.int (inject_Z h * target_ratio) in
    let x_center := (inject_Z w / 2)%Q in
    let x1 := Py.int (x_center - inject_Z new_width / 2) in
    mret (mkTransform (CropX x1 new_width) (target_width, target_height))
  else
    new_height_f ← Py.truediv (inject_Z w) target_ratio;
    let new_height := Py.int new_height_f in
    let y_center := (inject_Z h / 2)%Q in
    let y1 := Py.int (y_center - inject_Z new_height / 2) in
    mret (mkTransform (CropY y1 new_height) (target_width, target_height)).

(** ** Segment planner: the loop head of [cut_video_into_clips]

    Lines 116-125 of [app.py] (45-61 of [clipper.py], identical): the number
    of candidate clips, the bounds of candidate [i] and the guard that skips
    a candidate shorter than 30 seconds. *)

Definition num_clips (total_duration : Q) (clip_duration : Z) : outcome Z :=
  q ← Py.truediv total_duration (inject_Z clip_duration);
  mret (Py.ceil q).

Definition start_time (i clip_duration : Z) : Q := inject_Z (i * clip_duration).

Definition end_time (i clip_duration : Z) (total_duration : Q) : Q :=
  Py.min (inject_Z ((i + 1) * clip_duration)) total_duration.

(** [end_time - start_time < 30] *)
Definition too_short (start_t end_t : Q) : bool := Py.lt (end_t - start_t) 30.

(** One planned segment: 0-based index and time range. *)
Record segment : Type := mkSegment {
  seg_index : Z;
  seg_start : Q;
  seg_end : Q
}.

(** The iterations of [for i in range(num_clips)] that get past the
    [continue]. *)
Fixpoint plan_loop (idxs : list Z) (clip_duration : Z) (total_duration : Q)
  : list segment :=
  match idxs with
  | [] => []
  | i :: rest =>
      let s := start_time i clip_duration in
      let e := end_time i clip_duration total_duration in
      if too_short s e
      then plan_loop rest clip_duration total_duration
      else mkSegment i s e :: plan_loop rest clip_duration total_duration
  end.

Definition segment_plan (total_duration : Q) (clip_duration : Z)
  : outcome (list segment) :=
  n ← num_clips total_duration clip_duration;
  mret (plan_loop (Py.range n) clip_duration total_duration).

(** The time ranges of a plan, as the pairs the specification speaks of. *)
Definition ranges (p : list segment) : list (Q * Q) :=
  map (fun s => (seg_start s, seg_end s)) p.


(** ** Task state, registry and collaborators *)

Inductive status : Type :=
| starting | downloading | downloaded | processing | completed | error.

#[global] Instance status_eq_dec : EqDecision status.
Proof. solve_decision. Defined.

Definition terminal (s : status) : bool :=
  match s with
  | completed | error => true
  | _ => false
  end.

(** The [message] field.  Every message of the source is an f-string over
    a fixed template; a constructor stands for the template and carries
    the interpolated values. *)
Inductive message : Type :=
| MsgInit                              (* "Initialisation..." *)
| MsgDownloading                       (* "Téléchargement de la vidéo..." *)
| MsgDownloaded (title : string)       (* f"Téléchargé: {video_title}" *)
| MsgDownloadError (e : exn)           (* f"Erreur téléchargement: {str(e)}" *)
| MsgAnalysing                         (* "Analyse de la vidéo..." *)
| MsgCreating (n : Z)                  (* f"Création de {num_clips} clips (format 9:16)..." *)
| MsgClip (i n : Z)                    (* f"Création clip {i+1}/{num_clips} (format TikTok)..." *)
| MsgCutError (e : exn)                (* f"Erreur découpage: {str(e)}" *)
| MsgDone (n : nat)                    (* f"✅ {len(clips)} clips créés!" *)
| MsgError (e : exn).                  (* f"Erreur: {str(e)}" *)

(** A [pathlib.Path]: directory and final component ([.name]). *)
Record path : Type := mkPath {
  parent : string;
  name : string
}.

(** [str(p)] *)
Definition path_str (p : path) : string :=
  (parent p ++ "/" ++ name p)%string.

(** One value of the [tasks] dict. *)
Record snapshot : Type := mkSnapshot {
  snap_status : status;
  snap_progress : Z;
  snap_message : message;
  snap_clips : list string
}.

(** What [VideoFileClip(video_path)] exposes to the pipeline. *)
Record video : Type := mkVideo {
  duration : Q;
  size : Z * Z
}.

(** One request to the codec: [video.subclip(start, end)], reframed, then
    [write_videofile(str(output_path), ...)]. *)
Record encode_call : Type := mkEncode {
  enc_source : string;
  enc_index : Z;           (* 0-based loop index [i] *)
  enc_start : Q;
  enc_end : Q;
  enc_transform : transform;
  enc_output : path
}.

(** The external collaborators, as the outcomes they hand back. *)
Record env : Type := mkEnv {
  (** [ydl.extract_info] then [info['title']] and [ydl.prepare_filename]:
      the extension filled into [outtmpl] and the title, or an exception. *)
  extract_info : string -> outcome (string * string);
  (** [VideoFileClip(path)] *)
  open_video : string -> outcome video;
  (** [subclip] .. [write_videofile]: [None] on success. *)
  write_videofile : encode_call -> option exn;
  (** [os.remove(path)]: [None] on success. *)
  os_remove : string -> option exn
}.

(** The mutable state one worker touches: its own object ([self]), the
    module-level [tasks] dict and the files on disk.  [writes] and
    [encodes] are history variables: every value stored in
    [tasks[task_id]] by this worker and every codec request, oldest
    first. *)
Record state : Type := mkState {
  self_status : status;
  self_progress : Z;
  self_message : message;
  self_clips : list path;
  tasks : gmap string snapshot;
  files : gset string;
  writes : list snapshot;
  encodes : list encode_call
}.

(** ** State and exception monad *)

Definition M (A : Type) : Type := state -> state * outcome A.

#[global] Instance M_ret : MRet M := fun _ a s => (s, Ret a).
#[global] Instance M_bind : MBind M := fun _ _ f m s =>
  match m s with
  | (s', Ret a) => f a s'
  | (s', Raise e) => (s', Raise e)
  end.

Definition raise {A} (e : exn) : M A := fun s => (s, Raise e).

Definition lift {A} (o : outcome A) : M A := fun s => (s, o).

Definition gets {A} (f : state -> A) : M A := fun s => (s, Ret (f s)).

Definition modify (f : state -> state) : M unit := fun s => (f s, Ret tt).

(** [try: body except Exception as e: handler(e)] *)
Definition try_except {A} (body : M A) (handler : exn -> M A) : M A :=
  fun s =>
    match body s with
    | (s', Ret a) => (s', Ret a)
    | (s', Raise e) => handler e s'
    end.

(** [if b: body] *)
Definition when_ (b : bool) (body : M unit) : M unit :=
  if b then body else mret tt.

(** [for x in xs: body(x)]; a body that returns early is a [continue]. *)
Fixpoint for_each {A} (xs : list A) (body : A -> M unit) : M unit :=
  match xs with
  | [] => mret tt
  | x :: rest => body x ;; for_each rest body
  end.

(** ** class [TikTokClipper] of [app.py] *)

Section TikTokClipper.

Variable E : env.
Variable task_id : string.

(** [self.output_dir = Path(output_dir) / task_id] with the default
    ["clips_output"] *)
Definition output_dir : string := ("clips_output/" ++ task_id)%string.

(** [__init__] after its [self.output_dir.mkdir(parents=True,
    exist_ok=True)] has returned: fresh fields of [self]; [tasks] is not
    touched.  Directories are not part of the modelled disk.  The [mkdir]
    itself, which can raise outside every [try], is in
    [Thread.init] below. *)
Definition init (s : state) : state :=
  mkState starting 0 MsgInit [] (tasks s) (files s) (writes s) (encodes s).

Definition update_status (st : status) (progress : Z) (msg : message)
  : M unit :=
  modify (fun s =>
    let snap := mkSnapshot st progress msg (map name (self_clips s)) in
    mkState st progress msg (self_clips s)
            (<[task_id := snap]> (tasks s)) (files s)
            (writes s ++ [snap]) (encodes s)).

(** The download itself: on success the file named by
    [prepare_filename] is on disk. *)
Definition ydl_download (youtube_url : string) : M (string * string) :=
  info ← lift (extract_info E youtube_url);
  let '(ext, video_title) := info in
  let filename := (output_dir ++ "/temp_video." ++ ext)%string in
  modify (fun s =>
    mkState (self_status s) (self_progress s) (self_message s)
            (self_clips s) (tasks s) ({[filename]} ∪ files s)
            (writes s) (encodes s)) ;;
  mret (filename, video_title).

Definition download_video (youtube_url : string)
  : M (option string * option string) :=
  update_status downloading 10 MsgDownloading ;;
  try_except
    (info ← ydl_download youtube_url;
     let '(filename, video_title) := info in
     update_status downloaded 30 (MsgDownloaded video_title) ;;
     mret (Some filename, Some video_title))
    (fun e =>
       update_status error 0 (MsgDownloadError e) ;;
       mret (None, None)).

(** [clip.write_videofile(str(output_path), ...)]: the request is logged,
    the file exists afterwards when the codec succeeds. *)
Definition encode (c : encode_call) : M unit :=
  modify (fun s =>
    mkState (self_status s) (self_progress s) (self_message s)
            (self_clips s) (tasks s) (files s)
            (writes s) (encodes s ++ [c])) ;;
  match write_videofile E c with
  | Some e => raise e
  | None =>
      modify (fun s =>
        mkState (self_status s) (self_progress s) (self_message s)
                (self_clips s) (tasks s)
                ({[path_str (enc_output c)]} ∪ files s)
                (writes s) (encodes s))
  end.

(** [self.clips.append(output_path)] *)
Definition append_clip (p : path) : M unit :=
  modify (fun s =>
    mkState (self_status s) (self_progress s) (self_message s)
            (self_clips s ++ [p]) (tasks s) (files s)
            (writes s) (encodes s)).

(** Body of [for i in range(num_clips)].  The progress value
    [50 + int((i / num_clips) * 45)] is computed here over exact
    rationals; in doubles the product can fall just below an integer the
    exact fraction reaches (13/45 * 45), so the value stored by the code
    can be one less. *)
Definition clip_body (video_path : string) (v : video)
  (clip_duration n : Z) (i : Z) : M unit :=
  let start_t := start_time i clip_duration in
  let end_t := end_time i clip_duration (duration v) in
  if too_short start_t end_t then mret tt   (* continue *)
  else
    frac ← lift (Py.truediv (inject_Z i) (inject_Z n));
    let progress := 50 + Py.int (frac * 45) in
    update_status processing progress (MsgClip (i + 1) n) ;;
    tr ← lift (resize_to_tiktok_format (size v));
    let output_path :=
      mkPath output_dir ("clip_" ++ Py.format_03d (i + 1) ++ ".mp4") in
    encode (mkEncode video_path i start_t end_t tr output_path) ;;
    append_clip output_path.

(** [video.subclip] only records the time range, so a failure of the
    codec for a segment surfaces in [encode]; [video.close()] releases the
    reader and changes nothing that is modelled.  An exception skips the
    rest of the loop; the handler records it and returns [[]]. *)
Definition cut_video_into_clips (video_path : string) (clip_duration : Z)
  : M (list path) :=
  update_status processing 40 MsgAnalysing ;;
  try_except
    (v ← lift (open_video E video_path);
     let total_duration := duration v in
     n ← lift (num_clips total_duration clip_duration);
     update_status processing 50 (MsgCreating n) ;;
     for_each (Py.range n) (clip_body video_path v clip_duration n) ;;
     gets self_clips)
    (fun e =>
       update_status error 0 (MsgCutError e) ;;
       mret []).

(** [os.path.exists(p)] *)
Definition os_path_exists (p : string) : M bool :=
  gets (fun s => bool_decide (p ∈ files s)).

(** [os.remove(p)] *)
Definition remove (p : string) : M unit :=
  match os_remove E p with
  | Some e => raise e
  | None =>
      modify (fun s =>
        mkState (self_status s) (self_progress s) (self_message s)
                (self_clips s) (tasks s) (files s ∖ {[p]})
                (writes s) (encodes s))
  end.

(** [not video_path]: [None] and the empty string are falsy. *)
Definition falsy (p : option string) : bool :=
  match p with
  | None => true
  | Some EmptyString => true
  | Some _ => false
  end.

(** The status left by [cut_video_into_clips] is not consulted: cleanup
    and the [completed] update follow whenever the download returned a
    path. *)
Definition process_video (youtube_url : string) (clip_duration : Z)
  : M unit :=
  try_except
    (dl ← download_video youtube_url;
     let '(video_path, title) := dl in
     match video_path with
     | Some vp =>
         if falsy video_path then mret tt
         else
           clips ← cut_video_into_clips vp clip_duration;
           ex ← os_path_exists vp;
           when_ ex (remove vp) ;;
           update_status completed 100 (MsgDone (length clips))
     | None => mret tt
     end)
    (fun e => update_status error 0 (MsgError e)).

(** [process_video_task] once the constructor's [mkdir] has returned: a
    fresh clipper, then the whole pipeline. *)
Definition process_video_task (youtube_url : string) (clip_duration : Z)
  : M unit :=
  modify init ;;
  process_video youtube_url clip_duration.

End TikTokClipper.

(** The route [/api/process] registers the task before the worker starts. *)
Definition initial_snapshot : snapshot := mkSnapshot starting 0 MsgInit [].

Definition submit (task_id : string) (s : state) : state :=
  mkState (self_status s) (self_progress s) (self_message s) (self_clips s)
          (<[task_id := initial_snapshot]> (tasks s)) (files s)
          (writes s ++ [initial_snapshot]) (encodes s).

(** A process that has served no request yet. *)
Definition empty_state : state :=
  mkState starting 0 MsgInit [] ∅ ∅ [] [].

(** One whole task: submission, then the worker body. *)
Definition run_task (E : env) (task_id url : string) (clip_duration : Z)
  : state * outcome unit :=
  process_video_task E task_id url clip_duration (submit task_id empty_state).

(** ** The specification's wording of the planner

    Section 4.1: for [i = 0 .. ceil(total/segment) - 1] the pair
    [(i * segment, min((i+1) * segment, total))], keeping the pairs of
    length at least [min_segment_duration = 30]. *)

Definition min_segment_duration : Q := 30.

Definition spec_candidate (total : Q) (segment : Z) (i : Z) : Q * Q :=
  ((inject_Z i * inject_Z segment)%Q,
   Qminmax.Qmin (inject_Z (i + 1) * inject_Z segment)%Q total).

Definition spec_keeps (p : Q * Q) : bool :=
  Qle_bool min_segment_duration (snd p - fst p).

Definition spec_plan (total : Q) (segment : Z) : list (Q * Q) :=
  List.filter spec_keeps
    (map (spec_candidate total segment)
         (map Z.of_nat (seq 0 (Z.to_nat (Qceiling (total / inject_Z segment)))))).

(** Contiguity: [tiles a p b] says the segments of [p] tile [[a, b)] in
    order, each one non-empty, starting where the previous one ends. *)
Fixpoint tiles (a : Q) (p : list segment) (b : Q) : Prop :=
  match p with
  | [] => (a == b)%Q
  | s :: rest =>
      (seg_start s == a)%Q /\ (seg_start s < seg_end s)%Q /\
      tiles (seg_end s) rest b
  end.

(** What section 4.1 and section 8 promise of a plan: only the final
    candidate can be shorter than the minimum (the earlier ones have
    exactly the segment length), the kept candidates tile [[0, b)] for
    some [b <= total] with [total - b < 30], and the plan is empty
    exactly when the total duration is below the minimum. *)
Definition planner_props (total : Q) (segment : Z) : Prop :=
  exists n p,
    num_clips total segment = Ret n
    /\ segment_plan total segment = Ret p
    /\ (forall i, 0 <= i < n - 1 ->
          (end_time i segment total - start_time i segment
           == inject_Z segment)%Q)
    /\ (forall i, 0 <= i < n ->
          too_short (start_time i segment) (end_time i segment total) = true ->
          i = n - 1)
    /\ (exists b, tiles 0 p b /\ (b <= total)%Q
                  /\ (total - b < min_segment_duration)%Q)
    /\ (p = [] <-> (total < min_segment_duration)%Q).

(** ** Scenarios

    Collaborators for the failure scenarios of section 8: the download
    succeeds, the video opens, [os.remove] succeeds, and the codec fails
    on the candidate with 0-based index [k]. *)
Definition codec_fails_at (k : Z) (total : Q) : env :=
  mkEnv (fun _ => Ret ("mp4", "title")%string)
        (fun _ => Ret (mkVideo total (1920, 1080)))
        (fun c => if enc_index c =? k
                  then Some (CodecError "encode failed")
                  else None)
        (fun _ => None).

(** Collaborators that never fail. *)
Definition all_succeed (total : Q) : env :=
  mkEnv (fun _ => Ret ("mp4", "title")%string)
        (fun _ => Ret (mkVideo total (1920, 1080)))
        (fun _ => None)
        (fun _ => None).

(** The download fails. *)
Definition download_fails : env :=
  mkEnv (fun _ => Raise (DownloadError "unavailable"))
        (fun _ => Ret (mkVideo 180 (1920, 1080)))
        (fun _ => None)
        (fun _ => None).

(** Where the worker of task [task_id] stores the download with
    extension [ext]. *)
Definition source_path (task_id ext : string) : string :=
  (output_dir task_id ++ "/temp_video." ++ ext)%string.

(** A list of progress values never decreases. *)
Fixpoint non_decreasing (l : list Z) : Prop :=
  match l with
  | [] => True
  | x :: rest =>
      match rest with
      | [] => True
      | y :: _ => x <= y /\ non_decreasing rest
      end
  end.

(** Some codec request logged in [s] was answered by an exception. *)
Definition encode_failed (E : env) (s : state) : bool :=
  existsb (fun c => match write_videofile E c with
                    | Some _ => true
                    | None => false
                    end) (encodes s).

(** The last status written to the registry, if any. *)
Definition last_status (s : state) : option status :=
  snap_status <$> last (writes s).

(** ** Frame relations

    [keeps R m]: running [m] from any state ends in a state related to
    it by [R], whether [m] returns or raises. *)
Definition keeps (R : state -> state -> Prop) {A} (m : M A) : Prop :=
  forall s, R s (fst (m s)).

(** Files are only ever added while cutting. *)
Definition files_grow (s s' : state) : Prop := files s ⊆ files s'.

(** ** What one kept segment makes the worker do *)

(** [50 + int((i / num_clips) * 45)] over exact rationals, as in
    [clip_body]. *)
Definition progress_of (n i : Z) : Z :=
  50 + Py.int (inject_Z i / inject_Z n * 45).

(** [self.output_dir / f"clip_{i+1:03d}.mp4"] *)
Definition clip_path (task_id : string) (i : Z) : path :=
  mkPath (output_dir task_id) ("clip_" ++ Py.format_03d (i + 1) ++ ".mp4").

(** Reading a zero-padded decimal number back. *)
Definition parse_decimal (s : string) : option N :=
  option_map N.of_uint (NilEmpty.uint_of_string s).

(** ** Invariants of the worker *)

(** The registry entry of the task mirrors the fields of the worker
    object. *)
Definition registry_in_sync (task_id : string) (s : state) : Prop :=
  tasks s !! task_id
  = Some (mkSnapshot (self_status s) (self_progress s) (self_message s)
                     (map name (self_clips s))).

(** The codec answered request [c] without an exception. *)
Definition codec_ok (E : env) (c : encode_call) : bool :=
  match write_videofile E c with
  | None => true
  | Some _ => false
  end.

(** [self.clips] holds the outputs of the successful codec requests, in
    order. *)
Definition clips_are_successes (E : env) (s : state) : Prop :=
  self_clips s = map enc_output (List.filter (codec_ok E) (encodes s)).

(** Every path in [self.clips] is an output path of this task and names a
    file on disk. *)
Definition clips_on_disk (task_id : string) (s : state) : Prop :=
  forall p, In p (self_clips s) ->
    (exists i, p = clip_path task_id i) /\ path_str p ∈ files s.

(** The entries of the other tasks are the same in both states. *)
Definition other_tasks_kept (task_id : string) (s s' : state) : Prop :=
  forall k, k <> task_id -> tasks s' !! k = tasks s !! k.

(** An invariant as a frame relation. *)
Definition preserves (I : state -> Prop) (s s' : state) : Prop := I s -> I s'.

(** ** Flask routes of [app.py]

    A response is the body handed to [jsonify] or [send_file] with its
    status code. *)
Inductive response : Type :=
| TaskCreated (task_id : string)     (* jsonify({'task_id': task_id}) *)
| MissingUrl                         (* {'error': 'URL manquante'}, 400 *)
| StatusOf (snap : snapshot)         (* jsonify(tasks[task_id]) *)
| UnknownTask                        (* {'error': 'Tâche introuvable'}, 404 *)
| FileSent (file : string)           (* send_file(clip_path, as_attachment=True) *)
| UnknownFile                        (* {'error': 'Fichier introuvable'}, 404 *)
| ServerError.                       (* uncaught exception: Flask answers 500 *)

(** What [/api/process] reads from the JSON body: [data.get('url')] and
    the value of [int(data.get('duration', 65))], [None] when the
    conversion raises. *)
Record process_request : Type := mkRequest {
  req_url : option string;
  req_duration : option Z
}.

(** [process()]: the duration is converted before the URL is looked at;
    [task_id] is the fresh [uuid4].  The state returned is the one in
    which [thread.start()] is called: the thread runs
    [process_video_task task_id url clip_duration] from it, possibly
    before the route has returned its answer. *)
Definition process (req : process_request) (task_id : string) (s : state)
  : state * response :=
  match req_duration req with
  | None => (s, ServerError)
  | Some clip_duration =>
      if falsy (req_url req) then (s, MissingUrl)
      else (submit task_id s, TaskCreated task_id)
  end.

(** [get_status(task_id)] *)
Definition get_status (task_id : string) (s : state) : response :=
  match tasks s !! task_id with
  | None => UnknownTask
  | Some snap => StatusOf snap
  end.

(** [download_clip(task_id, filename)], for a [filename] that is a plain
    file name: [Path('clips_output') / task_id / filename]. *)
Definition download_clip (task_id filename : string) (s : state) : response :=
  let clip_path := ("clips_output/" ++ task_id ++ "/" ++ filename)%string in
  if bool_decide (clip_path ∈ files s) then FileSent clip_path
  else UnknownFile.

(** ** The worker thread of [app.py], from its first statement

    [TikTokClipper(task_id)] starts with
    [self.output_dir.mkdir(parents=True, exist_ok=True)], outside every
    [try]: when it raises, the thread ends with that exception before a
    field is set or a status is written.  [mkdir p] is [None] when the
    directory [p] exists afterwards and [Some e] when the call raises
    [e]. *)
Module Thread.

(** [TikTokClipper.__init__] *)
Definition init (mkdir : string -> option exn) (task_id : string) : M unit :=
  match mkdir (output_dir task_id) with
  | Some e => raise e
  | None => modify (fun s => mkState starting 0 MsgInit [] (tasks s) (files s)
                                     (writes s) (encodes s))
  end.

(** [process_video_task] *)
Definition process_video_task (mkdir : string -> option exn) (E : env)
  (task_id youtube_url : string) (clip_duration : Z) : M unit :=
  init mkdir task_id ;;
  process_video E task_id youtube_url clip_duration.

End Thread.

(** ** [clipper.py]: the command-line clipper

    The same planning loop without registry and without reframing
    ("on garde le format original").  State is passed explicitly: the
    files on disk and the log of codec requests.  [print] only writes to
    the terminal and is left out. *)
Module Cli.

(** One codec request: [video.subclip(start, end)] written to
    [output_path]. *)
Record encode_call : Type := mkEncode {
  enc_source : string;
  enc_index : Z;
  enc_start : Q;
  enc_end : Q;
  enc_output : path
}.

Record env : Type := mkEnv {
  extract_info : string -> outcome (string * string);
  open_video : string -> outcome video;
  write_videofile : encode_call -> option exn;
  os_remove : string -> option exn
}.

Record state : Type := mkState {
  files : gset string;
  encodes : list encode_call
}.

Section Clipper.

Variable E : env.

(** [self.output_dir = Path(output_dir)] with the default
    ["clips_output"] *)
Definition output_dir : string := "clips_output".

(** [download_video]: ['outtmpl': 'temp_video.%(ext)s'], every exception
    caught. *)
Definition download_video (youtube_url : string) (s : state)
  : state * (option string * option string) :=
  match extract_info E youtube_url with
  | Ret (ext, video_title) =>
      let filename := ("temp_video." ++ ext)%string in
      (mkState ({[filename]} ∪ files s) (encodes s),
       (Some filename, Some video_title))
  | Raise e => (s, (None, None))
  end.

(** [self.output_dir / f"clip_{i+1:03d}.mp4"] *)
Definition output_path (i : Z) : path :=
  mkPath output_dir ("clip_" ++ Py.format_03d (i + 1) ++ ".mp4").

(** The request made for candidate [i]. *)
Definition request (video_path : string) (clip_duration : Z)
  (total_duration : Q) (i : Z) : encode_call :=
  mkEncode video_path i (start_time i clip_duration)
           (end_time i clip_duration total_duration) (output_path i).

(** [for i in range(num_clips)], with the local list [clips_created];
    an exception of the codec leaves the loop. *)
Fixpoint clip_loop (idxs : list Z) (video_path : string)
  (clip_duration : Z) (total_duration : Q) (clips_created : list path)
  (s : state) : state * outcome (list path) :=
  match idxs with
  | [] => (s, Ret clips_created)
  | i :: rest =>
      if too_short (start_time i clip_duration)
                   (end_time i clip_duration total_duration)
      then clip_loop rest video_path clip_duration total_duration
                     clips_created s
      else
        let c := request video_path clip_duration total_duration i in
        let s1 := mkState (files s) (encodes s ++ [c]) in
        match write_videofile E c with
        | Some e => (s1, Raise e)
        | None =>
            clip_loop rest video_path clip_duration total_duration
              (clips_created ++ [output_path i])
              (mkState ({[path_str (output_path i)]} ∪ files s1)
                       (encodes s1))
        end
  end.

(** [cut_video_into_clips]: any exception ends in [return []]. *)
Definition cut_video_into_clips (video_path : string) (clip_duration : Z)
  (s : state) : state * list path :=
  match open_video E video_path with
  | Raise e => (s, [])
  | Ret v =>
      match num_clips (duration v) clip_duration with
      | Raise e => (s, [])
      | Ret n =>
          match clip_loop (Py.range n) video_path clip_duration
                          (duration v) [] s with
          | (s', Ret clips_created) => (s', clips_created)
          | (s', Raise e) => (s', [])
          end
      end
  end.

(** [process_video]: nothing is caught here, so an exception of
    [os.remove] reaches the caller; [None] is the bare [return]. *)
Definition process_video (youtube_url : string) (clip_duration : Z)
  (s : state) : state * outcome (option (list path)) :=
  let '(s1, (video_path, title)) := download_video youtube_url s in
  match video_path with
  | None => (s1, Ret None)
  | Some vp =>
      if falsy video_path then (s1, Ret None)
      else
        let '(s2, clips) := cut_video_into_clips vp clip_duration s1 in
        if bool_decide (vp ∈ files s2) then
          match os_remove E vp with
          | Some e => (s2, Raise e)
          | None => (mkState (files s2 ∖ {[vp]}) (encodes s2), Ret (Some clips))
          end
        else (s2, Ret (Some clips))
  end.

End Clipper.

End Cli.

(** The time range of a request, for comparing the two clippers. *)
Definition web_range (c : encode_call) : Z * Q * Q :=
  (enc_index c, enc_start c, enc_end c).

Definition cli_range (c : Cli.encode_call) : Z * Q * Q :=
  (Cli.enc_index c, Cli.enc_start c, Cli.enc_end c).

(** The codec of the command-line clipper answered [c] without an
    exception. *)
Definition cli_codec_ok (E : Cli.env) (c : Cli.encode_call) : bool :=
  match Cli.write_videofile E c with
  | None => true
  | Some _ => false
  end.

(** The request of the command-line clipper for a planned segment. *)
Definition cli_request (video_path : string) (clip_duration : Z)
  (total_duration : Q) (sg : segment) : Cli.encode_call :=
  Cli.request video_path clip_duration total_duration (seg_index sg).

(** Collaborators of the command-line clipper that never fail, and ones
    whose codec fails on the candidate with index [k]. *)
Definition cli_all_succeed (total : Q) : Cli.env :=
  Cli.mkEnv (fun _ => Ret ("mp4", "title")%string)
            (fun _ => Ret (mkVideo total (1920, 1080)))
            (fun _ => None)
            (fun _ => None).

Definition cli_codec_fails_at (k : Z) (total : Q) : Cli.env :=
  Cli.mkEnv (fun _ => Ret ("mp4", "title")%string)
            (fun _ => Ret (mkVideo total (1920, 1080)))
            (fun c => if Cli.enc_index c =? k
                      then Some (CodecError "encode failed")
                      else None)
            (fun _ => None).

Definition cli_empty_state : Cli.state := Cli.mkState ∅ [].

(** ** Traces of registry writes *)




(** * Properties *)

(** ** Python arithmetic *)

Lemma Py_lt_iff a b : Py.lt a b = true <-> (a < b)%Q.
Proof.
  unfold Py.lt. rewrite negb_true_iff. split.
  - intros H. apply Qnot_le_lt. intros Hle.
    apply Qle_bool_iff in Hle. congruence.
  - intros H. destruct (Qle_bool b a) eqn:Hb; [|reflexivity].
    apply Qle_bool_iff in Hb. lra.
Qed.

Lemma Py_lt_false_iff a b : Py.lt a b = false <-> (b <= a)%Q.
Proof.
  unfold Py.lt. rewrite negb_false_iff. apply Qle_bool_iff.
Qed.

Lemma Py_truediv_ok a b : ~ (b == 0)%Q -> Py.truediv a b = Ret (a / b)%Q.
Proof.
  intros H. unfold Py.truediv.
  destruct (Qeq_bool b 0) eqn:Hb; [|reflexivity].
  apply Qeq_bool_iff in Hb. contradiction.
Qed.

Lemma Py_truediv_zero a : Py.truediv a (inject_Z 0) = Raise ZeroDivisionError.
Proof. reflexivity. Qed.

Lemma inject_Z_nonzero z : z <> 0 -> ~ (inject_Z z == 0)%Q.
Proof.
  intros Hz H. unfold Qeq in H. simpl in H. lia.
Qed.

(** On a non-negative number, truncation is the floor. *)
Lemma Py_int_floor x : (0 <= x)%Q -> Py.int x = Qfloor x.
Proof.
  destruct x as [n d]. unfold Qle, Py.int, Qfloor. simpl. intros H.
  apply Z.quot_div_nonneg; lia.
Qed.

Lemma Py_min_Qmin a b : Py.min a b = Qminmax.Qmin a b.
Proof.
  unfold Py.min, Py.lt, Qminmax.Qmin, GenericMinMax.gmin, Qle_bool, Qcompare.
  destruct (Z.compare_spec (Qnum a * QDen b) (Qnum b * QDen a)) as [H|H|H];
    destruct (Z.leb_spec (Qnum a * QDen b) (Qnum b * QDen a));
    simpl; try reflexivity; lia.
Qed.

Lemma Py_min_l a b : (a <= b)%Q -> Py.min a b = a.
Proof.
  intros H. unfold Py.min.
  destruct (Py.lt b a) eqn:Hlt; [|reflexivity].
  apply Py_lt_iff in Hlt. lra.
Qed.

Lemma Py_min_r a b : (b < a)%Q -> Py.min a b = b.
Proof.
  intros H. unfold Py.min. apply Py_lt_iff in H. now rewrite H.
Qed.

Lemma in_range i n : In i (Py.range n) <-> 0 <= i < n.
Proof.
  unfold Py.range. rewrite in_map_iff. split.
  - intros [k [<- Hk]]. apply in_seq in Hk. lia.
  - intros H. exists (Z.to_nat i). split; [lia|]. apply in_seq. lia.
Qed.

Lemma range_snoc n : 0 < n -> Py.range n = Py.range (n - 1) ++ [n - 1].
Proof.
  intros H. unfold Py.range.
  replace (Z.to_nat n) with (S (Z.to_nat (n - 1))) by lia.
  rewrite seq_S, map_app. simpl. f_equal. f_equal. lia.
Qed.

Lemma range_nonpos n : n <= 0 -> Py.range n = [].
Proof.
  intros H. unfold Py.range. now replace (Z.to_nat n) with O by lia.
Qed.

(** ** Segment planner *)

Lemma plan_loop_app l1 l2 cd total :
  plan_loop (l1 ++ l2) cd total = plan_loop l1 cd total ++ plan_loop l2 cd total.
Proof.
  induction l1 as [|i l1 IH]; simpl; [reflexivity|].
  destruct (too_short _ _); simpl; now rewrite IH.
Qed.

Lemma too_short_spec_keeps s e : too_short s e = negb (spec_keeps (s, e)).
Proof. reflexivity. Qed.

Lemma candidate_agrees total cd i :
  (start_time i cd, end_time i cd total) = spec_candidate total cd i.
Proof.
  unfold spec_candidate, start_time, end_time.
  rewrite Py_min_Qmin. reflexivity.
Qed.

(** The loop with its [continue] is the filter of the candidates. *)
Lemma plan_loop_filter idxs cd total :
  ranges (plan_loop idxs cd total)
  = List.filter spec_keeps (map (spec_candidate total cd) idxs).
Proof.
  induction idxs as [|i idxs IH]; simpl; [reflexivity|].
  rewrite too_short_spec_keeps, <- candidate_agrees.
  destruct (spec_keeps _); simpl; now rewrite IH.
Qed.

Lemma segment_plan_ok total cd :
  cd <> 0 ->
  segment_plan total cd
  = Ret (plan_loop (Py.range (Qceiling (total / inject_Z cd))) cd total).
Proof.
  intros Hcd. unfold segment_plan, num_clips.
  rewrite Py_truediv_ok by now apply inject_Z_nonzero.
  reflexivity.
Qed.

(** C6: the planner computes the candidates
    [(i*segment, min((i+1)*segment, total))] for
    [i = 0 .. ceil(total/segment) - 1] and keeps those of length at least
    30; a duration of 0 gives the empty plan, (65, 65) gives [(0,65)],
    (70, 65) gives [(0,65)] and (100, 65) gives [(0,65); (65,100)]. *)
Theorem segment_plan_matches_spec (total : Q) (segment : Z) :
  segment <> 0 ->
  (exists p, segment_plan total segment = Ret p
             /\ ranges p = spec_plan total segment)
  /\ segment_plan 0 segment = Ret []
  /\ segment_plan 65 65 = Ret [mkSegment 0 0 65]
  /\ segment_plan 70 65 = Ret [mkSegment 0 0 65]
  /\ segment_plan 100 65 = Ret [mkSegment 0 0 65; mkSegment 1 65 100].
Proof.
  intros Hseg. split; [|split; [|repeat split]].
  - eexists. split; [now apply segment_plan_ok|].
    apply plan_loop_filter.
  - rewrite segment_plan_ok by assumption.
    replace (Qceiling (0 / inject_Z segment)) with 0; [reflexivity|].
    symmetry. rewrite <- (Qceiling_Z 0). apply Qceiling_comp.
    unfold Qdiv. now rewrite Qmult_0_l.
Qed.

Lemma segment_plan_matches_spec_witness :
  65 <> 0 /\
  (exists p, segment_plan 100 65 = Ret p /\ ranges p = spec_plan 100 65).
Proof.
  split; [lia|].
  apply (segment_plan_matches_spec 100 65). lia.
Defined.

(** ** Geometry transform *)

Lemma half_diff_nonneg (b c : Q) : (b <= c)%Q -> (0 <= c / 2 - b / 2)%Q.
Proof.
  intros H.
  assert (Heq : (c / 2 - b / 2 == (c - b) * (1 # 2))%Q) by field.
  rewrite Heq. lra.
Qed.

Section Geometry.

Variables w h : Z.
Hypothesis Hw : 0 < w.
Hypothesis Hh : 0 < h.

Let target_ratio : Q := (inject_Z 1080 / inject_Z 1920)%Q.
Let current_ratio : Q := (inject_Z w / inject_Z h)%Q.

Lemma inject_Z_pos z : 0 < z -> (0 < inject_Z z)%Q.
Proof. intros H. unfold Qlt. simpl. lia. Qed.

Lemma wide_iff :
  (target_ratio < current_ratio)%Q
  <-> (target_ratio * inject_Z h < inject_Z w)%Q.
Proof.
  pose proof (inject_Z_pos h Hh) as Hpos. unfold current_ratio. split.
  - intros H. apply (Qmult_lt_r _ _ (inject_Z h)) in H; [|assumption].
    assert (Heq : (inject_Z w / inject_Z h * inject_Z h == inject_Z w)%Q)
      by (field; lra).
    now rewrite Heq in H.
  - intros H. now apply Qlt_shift_div_l.
Qed.

(** Source wider than the target: horizontal crop, height untouched. *)
Lemma resize_wide :
  (target_ratio < current_ratio)%Q ->
  let new_width := Qfloor (inject_Z h * target_ratio) in
  resize_to_tiktok_format (w, h)
  = Ret (mkTransform
           (CropX (Qfloor (inject_Z w / 2 - inject_Z new_width / 2)) new_width)
           (1080, 1920)).
Proof.
  intros Hwide new_width.
  pose proof (inject_Z_pos h Hh) as Hpos.
  assert (Hnw : Py.int (inject_Z h * target_ratio) = new_width).
  { apply Py_int_floor. apply Qmult_le_0_compat; [lra|].
    unfold target_ratio, Qle; simpl; lia. }
  unfold resize_to_tiktok_format.
  rewrite (Py_truediv_ok (inject_Z w) (inject_Z h)) by lra.
  cbn [mbind outcome_bind].
  rewrite (Py_truediv_ok (inject_Z 1080) (inject_Z 1920))
    by (unfold Qeq; simpl; lia).
  cbn [mbind outcome_bind].
  fold target_ratio current_ratio.
  apply Py_lt_iff in Hwide as Hb. rewrite Hb, Hnw.
  rewrite Py_int_floor; [reflexivity|].
  apply wide_iff in Hwide.
  pose proof (Qfloor_le (inject_Z h * target_ratio)) as Hfl.
  fold new_width in Hfl. revert Hwide Hfl.
  rewrite (Qmult_comm target_ratio).
  generalize (inject_Z h * target_ratio)%Q (inject_Z new_width) (inject_Z w).
  clear. intros a b c H1 H2. apply half_diff_nonneg. lra.
Qed.

(** Otherwise: vertical crop, width untouched. *)
Lemma resize_tall :
  ~ (target_ratio < current_ratio)%Q ->
  let new_height := Qfloor (inject_Z w / target_ratio) in
  resize_to_tiktok_format (w, h)
  = Ret (mkTransform
           (CropY (Qfloor (inject_Z h / 2 - inject_Z new_height / 2)) new_height)
           (1080, 1920)).
Proof.
  intros Htall new_height.
  pose proof (inject_Z_pos h Hh) as Hpos.
  pose proof (inject_Z_pos w Hw) as Hwpos.
  assert (Htr : (0 < target_ratio)%Q)
    by (unfold target_ratio, Qlt; simpl; lia).
  assert (Hle : (inject_Z w / target_ratio <= inject_Z h)%Q).
  { apply Qle_shift_div_r; [assumption|].
    rewrite wide_iff in Htall. lra. }
  assert (Hnh : Py.int (inject_Z w / target_ratio) = new_height).
  { apply Py_int_floor. apply Qle_shift_div_l; [assumption|]. lra. }
  unfold resize_to_tiktok_format.
  rewrite (Py_truediv_ok (inject_Z w) (inject_Z h)) by lra.
  cbn [mbind outcome_bind].
  rewrite (Py_truediv_ok (inject_Z 1080) (inject_Z 1920))
    by (unfold Qeq; simpl; lia).
  cbn [mbind outcome_bind].
  fold target_ratio current_ratio.
  destruct (Py.lt target_ratio current_ratio) eqn:Hb.
  { apply Py_lt_iff in Hb. contradiction. }
  rewrite Py_truediv_ok by lra.
  cbn [mbind outcome_bind].
  rewrite Hnh.
  rewrite Py_int_floor; [reflexivity|].
  pose proof (Qfloor_le (inject_Z w / target_ratio)) as Hfl.
  fold new_height in Hfl. revert Hle Hfl.
  generalize (inject_Z w / target_ratio)%Q (inject_Z new_height) (inject_Z h).
  clear. intros a b c H1 H2. apply half_diff_nonneg. lra.
Qed.

End Geometry.

(** C7: for positive [w], [h]: when [w/h > 1080/1920] the crop is
    horizontal only, with [new_width = floor(h * 1080/1920)] and
    [x_offset = floor(w/2 - new_width/2)]; otherwise it is vertical only,
    with [new_height = floor(w / (1080/1920))] and
    [y_offset = floor(h/2 - new_height/2)]; the result is then resized to
    1080 x 1920. *)
Theorem resize_to_tiktok_format_spec (w h : Z) :
  0 < w -> 0 < h ->
  let target_ratio := (inject_Z 1080 / inject_Z 1920)%Q in
  let current_ratio := (inject_Z w / inject_Z h)%Q in
  ((target_ratio < current_ratio)%Q ->
     let new_width := Qfloor (inject_Z h * target_ratio) in
     let x_offset := Qfloor (inject_Z w / 2 - inject_Z new_width / 2) in
     resize_to_tiktok_format (w, h)
     = Ret (mkTransform (CropX x_offset new_width) (1080, 1920)))
  /\
  (~ (target_ratio < current_ratio)%Q ->
     let new_height := Qfloor (inject_Z w / target_ratio) in
     let y_offset := Qfloor (inject_Z h / 2 - inject_Z new_height / 2) in
     resize_to_tiktok_format (w, h)
     = Ret (mkTransform (CropY y_offset new_height) (1080, 1920))).
Proof.
  intros Hw Hh. split.
  - now apply resize_wide.
  - now apply resize_tall.
Qed.

Lemma resize_to_tiktok_format_spec_witness :
  resize_to_tiktok_format (1000, 1000)
  = Ret (mkTransform (CropX 219 562) (1080, 1920))
  /\ resize_to_tiktok_format (1080, 3000)
     = Ret (mkTransform (CropY 540 1920) (1080, 1920)).
Proof.
  split.
  - apply (resize_to_tiktok_format_spec 1000 1000); [lia | lia |].
    unfold Qlt; simpl; lia.
  - apply (resize_to_tiktok_format_spec 1080 3000); [lia | lia |].
    unfold Qlt; simpl; lia.
Defined.

(** C8 (as amended): a 1920 x 1080 source is wider than 9:16, so the crop
    is horizontal only, [new_width = floor(1080 * 1080/1920) = 607] at
    [x_offset = 656]; the full height of 1080 is kept because no vertical
    crop is requested. *)
Theorem resize_1920_1080 :
  resize_to_tiktok_format (1920, 1080)
  = Ret (mkTransform (CropX 656 607) (1080, 1920))
  /\ Qfloor (inject_Z 1920 / (inject_Z 1080 / inject_Z 1920)) = 3413.
Proof. split; reflexivity. Qed.

(** C8 as stated fails: the transform of a 1920 x 1080 source is not a
    vertical crop, and no crop of height 1080 is requested. *)
Lemma resize_1920_1080_not_vertical :
  ~ exists t y1,
      resize_to_tiktok_format (1920, 1080) = Ret t
      /\ tr_crop t = CropY y1 1080.
Proof.
  intros [t [y1 [Ht Hc]]]. vm_compute in Ht.
  injection Ht as <-. discriminate Hc.
Qed.

(** ** Shape of the plan *)

Lemma tiles_Qeq a a' p b : (a == a')%Q -> tiles a p b -> tiles a' p b.
Proof.
  intros Ha. destruct p as [|s rest]; simpl.
  - intros H. now rewrite <- Ha.
  - intros (H1 & H2 & H3). repeat split; try assumption. now rewrite <- Ha.
Qed.

Lemma tiles_app a p b q c : tiles a p b -> tiles b q c -> tiles a (p ++ q) c.
Proof.
  revert a. induction p as [|s rest IH]; simpl; intros a.
  - intros Hab Hq. apply tiles_Qeq with (a := b); [now symmetry | assumption].
  - intros (H1 & H2 & H3) Hq. repeat split; try assumption. now apply IH.
Qed.

Section Planner.

Variable total : Q.
Variable cd : Z.
Hypothesis Htotal : (0 <= total)%Q.
Hypothesis Hcd : 30 <= cd.

Let n : Z := Qceiling (total / inject_Z cd).

Lemma cd_pos_Q : (0 < inject_Z cd)%Q.
Proof. unfold Qlt. simpl. lia. Qed.

(** [n = ceil(total / cd)] brackets the duration. *)
Lemma ceil_upper : (total <= inject_Z (n * cd))%Q.
Proof.
  pose proof (Qle_ceiling (total / inject_Z cd)) as H. fold n in H.
  apply (Qmult_le_r _ _ (inject_Z cd) cd_pos_Q) in H.
  rewrite inject_Z_mult.
  assert (Heq : (total / inject_Z cd * inject_Z cd == total)%Q).
  { field. pose proof cd_pos_Q. lra. }
  now rewrite Heq in H.
Qed.

Lemma ceil_lower : (inject_Z ((n - 1) * cd) < total)%Q.
Proof.
  pose proof (Qceiling_lt (total / inject_Z cd)) as H. fold n in H.
  apply (Qmult_lt_r _ _ (inject_Z cd) cd_pos_Q) in H.
  rewrite inject_Z_mult.
  assert (Heq : (total / inject_Z cd * inject_Z cd == total)%Q).
  { field. pose proof cd_pos_Q. lra. }
  now rewrite Heq in H.
Qed.

Lemma n_nonneg : 0 <= n.
Proof.
  pose proof ceil_upper as H.
  destruct (Z_lt_le_dec n 0) as [Hneg|]; [|assumption].
  assert (Hz : n * cd <= -1) by nia.
  rewrite Zle_Qle in Hz. simpl in Hz.
  assert ((inject_Z (-1) == -1)%Q) by reflexivity. lra.
Qed.

(** A candidate that ends no later than the video lasts
    [clip_duration] seconds and is kept. *)
Lemma full_candidate i :
  (inject_Z ((i + 1) * cd) <= total)%Q ->
  end_time i cd total = inject_Z ((i + 1) * cd)
  /\ (end_time i cd total - start_time i cd == inject_Z cd)%Q
  /\ too_short (start_time i cd) (end_time i cd total) = false.
Proof.
  intros Hfull. unfold end_time. rewrite Py_min_l by assumption.
  assert (Hlen : (inject_Z ((i + 1) * cd) - start_time i cd
                  == inject_Z cd)%Q).
  { unfold start_time. rewrite !inject_Z_mult, inject_Z_plus. ring. }
  repeat split; try assumption.
  unfold too_short. apply Py_lt_false_iff. rewrite Hlen.
  rewrite Zle_Qle in Hcd. exact Hcd.
Qed.

Lemma nonfinal_full i : 0 <= i < n - 1 -> (inject_Z ((i + 1) * cd) <= total)%Q.
Proof.
  intros Hi. pose proof ceil_lower as Hlow.
  assert (Hz : (i + 1) * cd <= (n - 1) * cd) by nia.
  rewrite Zle_Qle in Hz. lra.
Qed.

(** The first [m] candidates, when all of them fit. *)
Lemma prefix_plan m :
  0 <= m ->
  (inject_Z (m * cd) <= total)%Q ->
  tiles 0 (plan_loop (Py.range m) cd total) (inject_Z (m * cd))
  /\ Z.of_nat (length (plan_loop (Py.range m) cd total)) = m.
Proof.
  intros Hm. pattern m. apply natlike_ind; [| |assumption].
  - intros _. simpl. split; reflexivity.
  - clear m Hm. intros m Hm IH Hfit.
    assert (Hprev : (inject_Z (m * cd) <= total)%Q).
    { assert (Hz : m * cd <= Z.succ m * cd) by nia.
      rewrite Zle_Qle in Hz. lra. }
    destruct (IH Hprev) as [Ht Hl].
    rewrite range_snoc by lia.
    replace (Z.succ m - 1) with m by lia.
    rewrite plan_loop_app. simpl.
    replace (Z.succ m) with (m + 1) in * by lia.
    destruct (full_candidate m Hfit) as (He & Hlen & Hk).
    rewrite Hk. split.
    + eapply tiles_app; [exact Ht|]. simpl.
      rewrite He. repeat split; try reflexivity.
      unfold start_time.
      assert (Hz : m * cd < (m + 1) * cd) by nia.
      rewrite Zlt_Qlt in Hz. exact Hz.
    + rewrite length_app. simpl. lia.
Qed.

End Planner.

(** C5 (as amended): for every [total_duration >= 0] and every
    [segment_duration >= 30], only the final candidate can fall below the
    30-second minimum (all earlier ones have exactly the segment length),
    the plan is contiguous and covers [[0, total)] but for a trailing gap
    shorter than 30 seconds, and it is empty iff [total_duration < 30]. *)
Theorem segment_plan_shape (total : Q) (segment : Z) :
  (0 <= total)%Q -> 30 <= segment -> planner_props total segment.
Proof.
  intros Htotal Hcd.
  set (n := Qceiling (total / inject_Z segment)).
  pose proof (ceil_upper total segment Hcd) as Hup.
  pose proof (ceil_lower total segment Hcd) as Hlow.
  pose proof (n_nonneg total segment Htotal Hcd) as Hn0.
  fold n in Hup, Hlow, Hn0.
  assert (Hnum : num_clips total segment = Ret n).
  { unfold num_clips. rewrite Py_truediv_ok; [reflexivity|].
    apply inject_Z_nonzero. lia. }
  exists n, (plan_loop (Py.range n) segment total).
  split; [exact Hnum|].
  split; [apply segment_plan_ok; lia|].
  split.
  { intros i Hi.
    apply (full_candidate total segment Hcd i).
    now apply nonfinal_full. }
  split.
  { intros i Hi Hshort.
    destruct (Z.eq_dec i (n - 1)) as [|Hne]; [assumption|].
    assert (Hi' : 0 <= i < n - 1) by lia.
    pose proof (nonfinal_full total segment Hcd i Hi') as Hfull.
    destruct (full_candidate total segment Hcd i Hfull) as (_ & _ & Hk).
    congruence. }
  destruct (Z.eq_dec n 0) as [Hz|Hnz].
  - (* no candidate at all: the video has duration 0 *)
    rewrite Hz in *. rewrite Z.mul_0_l in Hup. simpl.
    change (inject_Z 0) with 0%Q in Hup.
    assert (Ht0 : (total == 0)%Q) by lra.
    unfold min_segment_duration. split.
    + exists 0%Q. simpl. repeat split; try reflexivity; lra.
    + split; [intros _; lra | reflexivity].
  - (* the candidates 0 .. n-2 fit, the last one ends with the video *)
    assert (Hm : 0 <= n - 1) by lia.
    destruct (prefix_plan total segment Hcd (n - 1) Hm) as [Ht Hl];
      [lra|].
    rewrite range_snoc by lia. rewrite plan_loop_app.
    set (pre := plan_loop (Py.range (n - 1)) segment total) in *.
    simpl.
    set (s := start_time (n - 1) segment).
    set (e := end_time (n - 1) segment total).
    assert (He : (e == total)%Q).
    { unfold e, end_time. replace (n - 1 + 1) with n by lia.
      unfold Py.min.
      destruct (Py.lt total (inject_Z (n * segment))) eqn:Hlt;
        [reflexivity|].
      apply Py_lt_false_iff in Hlt. lra. }
    assert (Hs0 : (0 <= s)%Q).
    { unfold s, start_time.
      assert (Hz : 0 <= (n - 1) * segment) by nia.
      rewrite Zle_Qle in Hz. exact Hz. }
    assert (Hsdef : s = inject_Z ((n - 1) * segment)) by reflexivity.
    clearbody s e. rewrite <- Hsdef in *.
    unfold min_segment_duration.
    destruct (too_short s e) eqn:Hshort.
    + (* the remainder is dropped *)
      unfold too_short in Hshort. apply Py_lt_iff in Hshort.
      rewrite app_nil_r. split.
      * exists s. split; [exact Ht|]. split; lra.
      * split.
        -- intros Hnil. rewrite Hnil in Hl. simpl in Hl.
           assert (Hs : (s == 0)%Q).
           { rewrite Hsdef. now replace (n - 1) with 0 by lia. }
           lra.
        -- intros Hlt.
           destruct (Z.eq_dec (n - 1) 0) as [Hone|Hmore].
           ++ destruct pre; [reflexivity|]. simpl in Hl. lia.
           ++ exfalso.
              assert (Hz : 30 <= (n - 1) * segment) by nia.
              rewrite Zle_Qle, <- Hsdef in Hz.
              change (inject_Z 30) with 30%Q in Hz. lra.
    + (* the remainder is kept *)
      unfold too_short in Hshort. apply Py_lt_false_iff in Hshort.
      split.
      * exists e. split; [|split; lra].
        eapply tiles_app; [exact Ht|]. simpl.
        repeat split; try reflexivity. lra.
      * split.
        -- intros Hnil. destruct pre; discriminate Hnil.
        -- intros Hlt. exfalso. lra.
Qed.

Lemma segment_plan_shape_witness : planner_props 70 65.
Proof.
  apply (segment_plan_shape 70 65).
  - unfold Qle; simpl; lia.
  - lia.
Defined.

(** C5 as stated fails for a segment length below the minimum: a 100 s
    video cut in 20 s segments has five candidates, all of them dropped,
    so the plan is empty although the duration is not below 30. *)
Lemma segment_plan_shape_fails_short_segments :
  ~ ((0 <= 100)%Q -> 0 < 20 -> planner_props 100 20).
Proof.
  intros H.
  destruct H as (n & p & _ & Hp & _ & Hfinal & _ & Hempty);
    [unfold Qle; simpl; lia | lia |].
  vm_compute in Hp. injection Hp as <-.
  destruct Hempty as [Hempty _].
  specialize (Hempty eq_refl).
  unfold min_segment_duration, Qlt in Hempty. simpl in Hempty. lia.
Qed.

(** ** Running the pipeline *)

Lemma run_bind {A B} (m : M A) (f : A -> M B) (s : state) :
  (m ≫= f) s
  = match m s with
    | (s', Ret a) => f a s'
    | (s', Raise e) => (s', Raise e)
    end.
Proof. reflexivity. Qed.

Lemma run_bind_ret {A B} (m : M A) (f : A -> M B) s s' a :
  m s = (s', Ret a) -> (m ≫= f) s = f a s'.
Proof. intros H. now rewrite run_bind, H. Qed.

Lemma run_bind_raise {A B} (m : M A) (f : A -> M B) s s' e :
  m s = (s', Raise e) -> (m ≫= f) s = (s', Raise e).
Proof. intros H. now rewrite run_bind, H. Qed.

(** An [except Exception] whose handler returns makes the whole
    statement return. *)
Lemma try_except_returns {A} (body : M A) (handler : exn -> M A) :
  (forall e s, exists s' a, handler e s = (s', Ret a)) ->
  forall s, exists s' a, try_except body handler s = (s', Ret a).
Proof.
  intros Hh s. unfold try_except.
  destruct (body s) as [s1 [a|e]]; [eauto | apply Hh].
Qed.

(** *** Relations every step of the worker preserves *)

Section Frame.

Variable R : state -> state -> Prop.
Hypothesis R_refl : forall s, R s s.
Hypothesis R_trans : forall a b c, R a b -> R b c -> R a c.

Lemma keeps_ret {A} (a : A) : keeps R (mret a).
Proof. intros s. apply R_refl. Qed.

Lemma keeps_raise {A} e : keeps R (raise (A := A) e).
Proof. intros s. apply R_refl. Qed.

Lemma keeps_lift {A} (o : outcome A) : keeps R (lift o).
Proof. intros s. apply R_refl. Qed.

Lemma keeps_gets {A} (f : state -> A) : keeps R (gets f).
Proof. intros s. apply R_refl. Qed.

Lemma keeps_bind {A B} (m : M A) (f : A -> M B) :
  keeps R m -> (forall a, keeps R (f a)) -> keeps R (m ≫= f).
Proof.
  intros Hm Hf s. rewrite run_bind. specialize (Hm s).
  destruct (m s) as [s1 [a|e]]; simpl in *; [|assumption].
  eapply R_trans; [exact Hm | apply Hf].
Qed.

Lemma keeps_try {A} (body : M A) (handler : exn -> M A) :
  keeps R body -> (forall e, keeps R (handler e)) ->
  keeps R (try_except body handler).
Proof.
  intros Hb Hh s. unfold try_except. specialize (Hb s).
  destruct (body s) as [s1 [a|e]]; simpl in *; [assumption|].
  eapply R_trans; [exact Hb | apply Hh].
Qed.

Lemma keeps_when b (m : M unit) : keeps R m -> keeps R (when_ b m).
Proof. intros Hm. destruct b; [exact Hm | apply keeps_ret]. Qed.

Lemma keeps_for_each {A} (xs : list A) (body : A -> M unit) :
  (forall x, keeps R (body x)) -> keeps R (for_each xs body).
Proof.
  intros Hb. induction xs as [|x xs IH]; simpl.
  - apply keeps_ret.
  - apply keeps_bind; [apply Hb | intros _; exact IH].
Qed.

Lemma keeps_modify (f : state -> state) :
  (forall s, R s (f s)) -> keeps R (modify f).
Proof. intros Hf s. apply Hf. Qed.

End Frame.

Lemma files_grow_refl s : files_grow s s.
Proof. unfold files_grow. set_solver. Qed.

Lemma files_grow_trans a b c : files_grow a b -> files_grow b c -> files_grow a c.
Proof. unfold files_grow. set_solver. Qed.

(** Decomposes a frame goal along the structure of the program. *)
Ltac frame_with refl trans leaves :=
  repeat first
    [ exact refl
    | exact trans
    | leaves
    | apply keeps_ret | apply keeps_lift | apply keeps_gets
    | apply keeps_raise
    | apply keeps_bind | apply keeps_try | apply keeps_when
    | apply keeps_for_each
    | match goal with |- forall _, _ => intros ? end ].

Section Worker.

Variable E : env.
Variable task_id : string.

Lemma update_status_run st p msg s :
  exists s',
    update_status task_id st p msg s = (s', Ret tt)
    /\ tasks s' !! task_id
       = Some (mkSnapshot st p msg (map name (self_clips s)))
    /\ files s' = files s
    /\ self_clips s' = self_clips s
    /\ writes s' = writes s ++ [mkSnapshot st p msg (map name (self_clips s))]
    /\ encodes s' = encodes s.
Proof.
  eexists. split; [reflexivity|]. simpl.
  rewrite lookup_insert_eq. repeat split; reflexivity.
Qed.

Lemma update_status_files st p msg :
  keeps files_grow (update_status task_id st p msg).
Proof. intros s. unfold files_grow. simpl. set_solver. Qed.

Lemma append_clip_files p : keeps files_grow (append_clip p).
Proof. intros s. unfold files_grow. simpl. set_solver. Qed.

Lemma encode_files c : keeps files_grow (encode E c).
Proof.
  intros s. unfold encode, files_grow. rewrite run_bind. simpl.
  destruct (write_videofile E c); simpl; set_solver.
Qed.

Ltac files_frame :=
  frame_with files_grow_refl files_grow_trans
    ltac:(first [ apply update_status_files
                | apply encode_files
                | apply append_clip_files ]).

Lemma clip_body_files vp v cd n i :
  keeps files_grow (clip_body E task_id vp v cd n i).
Proof.
  unfold clip_body. destruct (too_short _ _); files_frame.
Qed.

Lemma cut_video_into_clips_files vp cd :
  keeps files_grow (cut_video_into_clips E task_id vp cd).
Proof.
  unfold cut_video_into_clips. files_frame. apply clip_body_files.
Qed.

(** Cutting always returns: its handler swallows every exception. *)
Lemma cut_video_into_clips_returns vp cd s :
  exists s' clips, cut_video_into_clips E task_id vp cd s = (s', Ret clips).
Proof.
  unfold cut_video_into_clips. rewrite run_bind.
  destruct (update_status_run processing 40 MsgAnalysing s)
    as (s1 & -> & _).
  apply try_except_returns. intros e s2.
  eexists _, _. reflexivity.
Qed.

End Worker.

Section Pipeline.

Variable E : env.
Variable task_id : string.

Lemma download_video_fails url s e :
  extract_info E url = Raise e ->
  exists s',
    download_video E task_id url s = (s', Ret (None, None))
    /\ tasks s' !! task_id
       = Some (mkSnapshot error 0 (MsgDownloadError e)
                          (map name (self_clips s)))
    /\ files s' = files s
    /\ encodes s' = encodes s.
Proof.
  intros Hx. eexists.
  cbv [download_video try_except ydl_download update_status lift modify
       mbind M_bind mret M_ret].
  rewrite Hx. split; [reflexivity|]. simpl.
  rewrite lookup_insert_eq. repeat split; reflexivity.
Qed.

Lemma download_video_succeeds url s ext title :
  extract_info E url = Ret (ext, title) ->
  exists s',
    download_video E task_id url s
    = (s', Ret (Some (source_path task_id ext), Some title))
    /\ files s' = {[source_path task_id ext]} ∪ files s
    /\ encodes s' = encodes s
    /\ self_clips s' = self_clips s
    /\ writes s'
       = writes s
         ++ [mkSnapshot downloading 10 MsgDownloading
                        (map name (self_clips s));
             mkSnapshot downloaded 30 (MsgDownloaded title)
                        (map name (self_clips s))].
Proof.
  intros Hx. eexists.
  cbv [download_video try_except ydl_download update_status lift modify
       mbind M_bind mret M_ret].
  rewrite Hx. split; [reflexivity|]. simpl.
  rewrite <- app_assoc. repeat split; reflexivity.
Qed.

Lemma source_path_truthy ext : falsy (Some (source_path task_id ext)) = false.
Proof. reflexivity. Qed.

(** The two ways the worker body can go, with the state it ends in. *)
Lemma process_video_cases url cd s :
  (exists e s',
      extract_info E url = Raise e
      /\ process_video E task_id url cd s = (s', Ret tt)
      /\ files s' = files s
      /\ encodes s' = encodes s
      /\ exists snap, tasks s' !! task_id = Some snap
                      /\ snap_status snap = error)
  \/
  (exists ext title s1 s2 clips s',
      extract_info E url = Ret (ext, title)
      /\ download_video E task_id url s
         = (s1, Ret (Some (source_path task_id ext), Some title))
      /\ cut_video_into_clips E task_id (source_path task_id ext) cd s1
         = (s2, Ret clips)
      /\ source_path task_id ext ∈ files s2
      /\ process_video E task_id url cd s = (s', Ret tt)
      /\ ((os_remove E (source_path task_id ext) = None
           /\ files s' = files s2 ∖ {[source_path task_id ext]}
           /\ tasks s' !! task_id
              = Some (mkSnapshot completed 100 (MsgDone (length clips))
                                 (map name (self_clips s2)))
           /\ writes s'
              = writes s2
                ++ [mkSnapshot completed 100 (MsgDone (length clips))
                               (map name (self_clips s2))]
           /\ encodes s' = encodes s2)
          \/
          (exists e,
              os_remove E (source_path task_id ext) = Some e
              /\ files s' = files s2
              /\ tasks s' !! task_id
                 = Some (mkSnapshot error 0 (MsgError e)
                                    (map name (self_clips s2)))))).
Proof.
  destruct (extract_info E url) as [[ext title]|e] eqn:Hx.
  - right.
    destruct (download_video_succeeds url s ext title Hx)
      as (s1 & Hdl & Hf1 & _).
    destruct (cut_video_into_clips_returns E task_id
                (source_path task_id ext) cd s1) as (s2 & clips & Hcut).
    assert (Hin : source_path task_id ext ∈ files s2).
    { pose proof (cut_video_into_clips_files E task_id
                    (source_path task_id ext) cd s1) as Hg.
      rewrite Hcut in Hg. unfold files_grow in Hg. simpl in Hg.
      apply Hg. rewrite Hf1. apply elem_of_union_l.
      now apply elem_of_singleton. }
    assert (Hbody :
      process_video E task_id url cd s
      = try_except
          (ex ← os_path_exists (source_path task_id ext);
           when_ ex (remove E (source_path task_id ext)) ;;
           update_status task_id completed 100 (MsgDone (length clips)))
          (fun e => update_status task_id error 0 (MsgError e)) s2).
    { unfold process_video, try_except.
      rewrite (run_bind_ret _ _ _ _ _ Hdl).
      rewrite source_path_truthy.
      rewrite (run_bind_ret _ _ _ _ _ Hcut). reflexivity. }
    assert (Hex : bool_decide (source_path task_id ext ∈ files s2) = true)
      by now apply bool_decide_eq_true.
    destruct (os_remove E (source_path task_id ext)) as [e|] eqn:Hrm.
    + eexists ext, title, s1, s2, clips, _.
      repeat (split; [first [reflexivity | eassumption]|]).
      split.
      { rewrite Hbody.
        cbv [try_except os_path_exists gets mbind M_bind when_ remove
             raise update_status modify].
        rewrite Hex, Hrm. reflexivity. }
      right. exists e. simpl. rewrite lookup_insert_eq.
      repeat split; first [assumption | reflexivity].
    + eexists ext, title, s1, s2, clips, _.
      repeat (split; [first [reflexivity | eassumption]|]).
      split.
      { rewrite Hbody.
        cbv [try_except os_path_exists gets mbind M_bind when_ remove
             raise update_status modify].
        rewrite Hex, Hrm. reflexivity. }
      left. simpl. rewrite lookup_insert_eq.
      repeat split; first [assumption | reflexivity].
  - left.
    destruct (download_video_fails url s e Hx) as (s1 & Hdl & Ht & Hf & He).
    exists e, s1. split; [reflexivity|]. split.
    { unfold process_video, try_except.
      rewrite (run_bind_ret _ _ _ _ _ Hdl). reflexivity. }
    repeat split; try assumption. eexists. split; [exact Ht|reflexivity].
Qed.

End Pipeline.

(** ** The worker body always ends in a terminal state *)

(** C10: whatever the download, the video, the codec and [os.remove] do,
    and whatever the clip duration (0 included), [process_video] returns
    without an exception, and the registry then holds an entry for the
    task whose status is [completed] or [error]. *)
Theorem process_video_terminal
  (E : env) (task_id url : string) (clip_duration : Z) (s : state) :
  exists s' snap,
    process_video E task_id url clip_duration s = (s', Ret tt)
    /\ tasks s' !! task_id = Some snap
    /\ (snap_status snap = completed \/ snap_status snap = error).
Proof.
  destruct (process_video_cases E task_id url clip_duration s)
    as [(e & s' & _ & Hrun & _ & _ & snap & Hsnap & Hst)
       |(ext & title & s1 & s2 & clips & s' & _ & _ & _ & _ & Hrun & Hend)].
  - exists s', snap. auto.
  - destruct Hend as [(_ & _ & Hsnap & _)|(e & _ & _ & Hsnap)];
      eexists s', _; (split; [exact Hrun|]); (split; [exact Hsnap|]);
      simpl; auto.
Qed.

(** ** Cleanup of the downloaded source file *)

(** C4, evaluated: the codec fails on the second of three segments; the
    source file was on disk after the download, the failure is recorded
    as [error], and the cleanup of the success path runs all the same:
    the source file is gone at the end.  The download-failure path
    returns before the cleanup; this one falls through to it. *)
Theorem source_removed_after_failed_cut :
  let E := codec_fails_at 1 180 in
  let s1 := fst (download_video E "t1" "url"
                   (init (submit "t1" empty_state))) in
  let s' := fst (run_task E "t1" "url" 65) in
  source_path "t1" "mp4" ∈ files s1
  /\ encode_failed E s' = true
  /\ map snap_status (writes s')
     = [starting; downloading; downloaded; processing; processing;
        processing; processing; error; completed]
  /\ source_path "t1" "mp4" ∉ files s'.
Proof.
  intros E s1 s'. split; [|split; [|split]].
  - refine (proj1 (bool_decide_eq_true _) _). vm_compute. reflexivity.
  - vm_compute. reflexivity.
  - vm_compute. reflexivity.
  - refine (proj1 (bool_decide_eq_false _) _). vm_compute. reflexivity.
Qed.

(** ** A codec failure is overwritten by [completed]

    [cut_video_into_clips] records the failure and returns [[]];
    [process_video] does not look at the status and goes on to the
    cleanup and to the [completed] update. *)

(** C1, evaluated: with three planned segments and a codec that fails on
    the second, the third is never requested and the registry keeps the
    one artifact, but the final status is [completed], not [error]. *)
Theorem encode_failure_on_second_segment :
  let s' := fst (run_task (codec_fails_at 1 180) "t1" "url" 65) in
  segment_plan 180 65
  = Ret [mkSegment 0 0 65; mkSegment 1 65 130; mkSegment 2 130 180]
  /\ map enc_index (encodes s') = [0; 1]
  /\ In (mkSnapshot error 0 (MsgCutError (CodecError "encode failed"))
                    ["clip_001.mp4"%string]) (writes s')
  /\ tasks s' !! "t1"%string
     = Some (mkSnapshot completed 100 (MsgDone 0) ["clip_001.mp4"%string]).
Proof.
  intros s'. repeat split; try (vm_compute; reflexivity).
  vm_compute. do 7 right. left. reflexivity.
Qed.

(** C2, evaluated: with a clip duration of 0 the division raises, the
    status [error] is written, and one more update follows it. *)
Theorem status_written_after_error :
  let s' := fst (run_task (all_succeed 180) "t1" "url" 0) in
  map snap_status (writes s')
  = [starting; downloading; downloaded; processing; error; completed]
  /\ map snap_message (writes s')
     = [MsgInit; MsgDownloading; MsgDownloaded "title"; MsgAnalysing;
        MsgCutError ZeroDivisionError; MsgDone 0].
Proof. split; vm_compute; reflexivity. Qed.

(** C3, evaluated: the plan of a 100 s video has two entries; when the
    codec fails on the first, the registry ends with [completed] and an
    empty artifact list. *)
Theorem completed_with_missing_artifacts :
  let s' := fst (run_task (codec_fails_at 0 100) "t1" "url" 65) in
  segment_plan 100 65 = Ret [mkSegment 0 0 65; mkSegment 1 65 100]
  /\ map enc_index (encodes s') = [0]
  /\ tasks s' !! "t1"%string
     = Some (mkSnapshot completed 100 (MsgDone 0) []).
Proof. repeat split; vm_compute; reflexivity. Qed.

(** C9, evaluated: the same failure in a run that ends in [completed]
    makes the written progress values drop from 65 to 0 before the final
    100. *)
Theorem progress_drops_in_completed_run :
  let s' := fst (run_task (codec_fails_at 1 180) "t1" "url" 65) in
  last_status s' = Some completed
  /\ map snap_progress (writes s') = [0; 10; 30; 40; 50; 50; 65; 0; 100]
  /\ ~ non_decreasing (map snap_progress (writes s')).
Proof.
  intros s'. split; [|split]; try (vm_compute; reflexivity).
  replace (map snap_progress (writes s'))
    with [0; 10; 30; 40; 50; 50; 65; 0; 100] by (vm_compute; reflexivity).
  simpl. lia.
Qed.

(** ** Runs in which no collaborator fails

    What the claims on artifacts and progress say does hold as long as
    nothing raises: one codec request and one artifact per planned
    segment, and progress values that never decrease. *)

Lemma progress_of_floor n i :
  0 <= i < n ->
  progress_of n i = 50 + Qfloor (inject_Z i / inject_Z n * 45).
Proof.
  intros Hi. unfold progress_of. f_equal. apply Py_int_floor.
  apply Qmult_le_0_compat; [|unfold Qle; simpl; lia].
  apply Qle_shift_div_l; [unfold Qlt; simpl; lia|].
  rewrite Qmult_0_l. unfold Qle. simpl. lia.
Qed.

Lemma progress_of_mono n i j :
  0 <= i -> i <= j -> j < n -> progress_of n i <= progress_of n j.
Proof.
  intros Hi Hij Hj. rewrite !progress_of_floor by lia.
  apply Z.add_le_mono_l, Qfloor_resp_le.
  apply Qmult_le_compat_r; [|unfold Qle; simpl; lia].
  apply Qmult_le_compat_r.
  - rewrite <- Zle_Qle. exact Hij.
  - apply Qinv_le_0_compat. unfold Qle. simpl. lia.
Qed.

Lemma progress_of_bounds n i : 0 <= i < n -> 50 <= progress_of n i <= 95.
Proof.
  intros Hi. rewrite progress_of_floor by assumption.
  assert (Hn : (0 < inject_Z n)%Q) by (unfold Qlt; simpl; lia).
  assert (H0 : (0 <= inject_Z i / inject_Z n * 45)%Q).
  { apply Qmult_le_0_compat; [|unfold Qle; simpl; lia].
    apply Qle_shift_div_l; [assumption|].
    rewrite Qmult_0_l. unfold Qle. simpl. lia. }
  assert (H1 : (inject_Z i / inject_Z n * 45 <= 45)%Q).
  { assert (Hfrac : (inject_Z i / inject_Z n <= 1)%Q).
    { apply Qle_shift_div_r; [assumption|]. rewrite Qmult_1_l.
      rewrite <- Zle_Qle. lia. }
    revert Hfrac. generalize (inject_Z i / inject_Z n)%Q. intros q Hq. lra. }
  apply Qfloor_resp_le in H0, H1.
  change (Qfloor 0) with 0 in H0. change (Qfloor 45) with 45 in H1. lia.
Qed.

Lemma plan_loop_index idxs cd total sg :
  In sg (plan_loop idxs cd total) -> In (seg_index sg) idxs.
Proof.
  induction idxs as [|i idxs IH]; simpl; [tauto|].
  destruct (too_short _ _); simpl.
  - intros H. right. now apply IH.
  - intros [<-|H]; [now left | right; now apply IH].
Qed.

Lemma non_decreasing_cons x l :
  (forall y, In y l -> x <= y) -> non_decreasing l -> non_decreasing (x :: l).
Proof.
  intros Hx Hl. destruct l as [|y l]; simpl; [exact I|].
  split; [apply Hx; now left | exact Hl].
Qed.

Lemma non_decreasing_step x y l :
  x <= y -> non_decreasing (y :: l) -> non_decreasing (x :: y :: l).
Proof. intros Hxy Hl. split; assumption. Qed.

Lemma non_decreasing_snoc l x :
  (forall y, In y l -> y <= x) -> non_decreasing l -> non_decreasing (l ++ [x]).
Proof.
  induction l as [|a l IH]; intros Hx Hl; [exact I|].
  change ((a :: l) ++ [x]) with (a :: (l ++ [x])).
  apply non_decreasing_cons.
  - intros y Hy. apply in_app_or in Hy as [Hy|[<-|[]]].
    + destruct l as [|b l]; [destruct Hy|].
      destruct Hl as [Hab Hl].
      clear IH Hx. revert a b Hab Hl Hy.
      induction l as [|c l IHl]; intros a b Hab Hl Hy.
      * destruct Hy as [<-|[]]. exact Hab.
      * destruct Hy as [<-|Hy]; [exact Hab|].
        destruct Hl as [Hbc Hl].
        apply (IHl a c); [lia | exact Hl | exact Hy].
    + apply Hx. now left.
  - apply IH.
    + intros y Hy. apply Hx. now right.
    + destruct l; [exact I | apply Hl].
Qed.

(** Progress values of the kept segments of an increasing run of
    candidates. *)
Lemma plan_progress_sorted n cd total k a :
  (Z.of_nat (a + k) <= n)%Z ->
  non_decreasing
    (map (fun sg => progress_of n (seg_index sg))
         (plan_loop (map Z.of_nat (seq a k)) cd total)).
Proof.
  revert a. induction k as [|k IH]; intros a Hn; [exact I|].
  simpl. specialize (IH (S a)).
  destruct (too_short _ _); [apply IH; lia|].
  simpl map. apply non_decreasing_cons; [|apply IH; lia].
  intros y Hy. apply in_map_iff in Hy as [sg [<- Hsg]].
  apply plan_loop_index in Hsg.
  apply in_map_iff in Hsg as [j [Hj Hin]]. apply in_seq in Hin.
  simpl. apply progress_of_mono; lia.
Qed.

Section CleanRun.

Variable E : env.
Variable task_id : string.
Variable video_path : string.
Variable v : video.
Variable tr : transform.
Variable clip_duration n : Z.

Hypothesis Hresize : resize_to_tiktok_format (size v) = Ret tr.
Hypothesis Hcodec : forall c, write_videofile E c = None.

(** The codec request for a planned segment. *)
Let request (sg : segment) : encode_call :=
  mkEncode video_path (seg_index sg) (seg_start sg) (seg_end sg) tr
           (clip_path task_id (seg_index sg)).

Lemma clip_body_skip i s :
  too_short (start_time i clip_duration)
            (end_time i clip_duration (duration v)) = true ->
  clip_body E task_id video_path v clip_duration n i s = (s, Ret tt).
Proof. intros H. unfold clip_body. now rewrite H. Qed.

Lemma clip_body_keep i s :
  n <> 0 ->
  too_short (start_time i clip_duration)
            (end_time i clip_duration (duration v)) = false ->
  exists s',
    clip_body E task_id video_path v clip_duration n i s = (s', Ret tt)
    /\ self_clips s' = self_clips s ++ [clip_path task_id i]
    /\ encodes s'
       = encodes s
         ++ [request (mkSegment i (start_time i clip_duration)
                        (end_time i clip_duration (duration v)))]
    /\ map snap_progress (writes s')
       = map snap_progress (writes s) ++ [progress_of n i]
    /\ map snap_status (writes s')
       = map snap_status (writes s) ++ [processing].
Proof.
  intros Hn Hkeep.
  destruct (update_status_run task_id processing
              (50 + Py.int (inject_Z i / inject_Z n * 45))
              (MsgClip (i + 1) n) s) as (s1 & Hu & _ & _ & Hc1 & Hw1 & He1).
  eexists. unfold clip_body. rewrite Hkeep.
  rewrite run_bind. unfold lift at 1.
  rewrite Py_truediv_ok by now apply inject_Z_nonzero.
  rewrite run_bind, Hu.
  rewrite run_bind. unfold lift. rewrite Hresize.
  cbv [encode append_clip modify mbind M_bind]. rewrite Hcodec.
  split; [reflexivity|]. simpl.
  rewrite Hc1, He1, Hw1, !map_app. repeat split; reflexivity.
Qed.

(** The loop over any candidates with [n <> 0]. *)
Lemma for_each_clean idxs :
  n <> 0 ->
  forall s,
  let plan := plan_loop idxs clip_duration (duration v) in
  exists s',
    for_each idxs (clip_body E task_id video_path v clip_duration n) s
    = (s', Ret tt)
    /\ self_clips s'
       = self_clips s ++ map (fun sg => clip_path task_id (seg_index sg)) plan
    /\ encodes s' = encodes s ++ map request plan
    /\ map snap_progress (writes s')
       = map snap_progress (writes s)
         ++ map (fun sg => progress_of n (seg_index sg)) plan
    /\ map snap_status (writes s')
       = map snap_status (writes s) ++ map (fun _ => processing) plan.
Proof.
  intros Hn. induction idxs as [|i idxs IH]; intros s plan.
  - exists s. subst plan. simpl. rewrite !app_nil_r. auto.
  - subst plan. simpl for_each. simpl plan_loop.
    destruct (too_short _ _) eqn:Hshort.
    + rewrite (run_bind_ret _ _ _ _ _ (clip_body_skip i s Hshort)).
      apply IH.
    + destruct (clip_body_keep i s Hn Hshort)
        as (s1 & Hrun & Hc & He & Hp & Hst).
      rewrite (run_bind_ret _ _ _ _ _ Hrun).
      destruct (IH s1) as (s' & Hrun' & Hc' & He' & Hp' & Hst').
      exists s'. split; [exact Hrun'|]. simpl.
      rewrite Hc', He', Hp', Hst', Hc, He, Hp, Hst, <- !app_assoc.
      repeat split; reflexivity.
Qed.

End CleanRun.

Section CleanTask.

Variable E : env.
Variable task_id url ext title : string.
Variable v : video.
Variable tr : transform.
Variable clip_duration : Z.

Hypothesis Hdownload : extract_info E url = Ret (ext, title).
Hypothesis Hopen : open_video E (source_path task_id ext) = Ret v.
Hypothesis Hresize : resize_to_tiktok_format (size v) = Ret tr.
Hypothesis Hcodec : forall c, write_videofile E c = None.
Hypothesis Hremove : os_remove E (source_path task_id ext) = None.
Hypothesis Hduration : clip_duration <> 0.

Let n : Z := Py.ceil (duration v / inject_Z clip_duration).
Let plan : list segment := plan_loop (Py.range n) clip_duration (duration v).
Let request (sg : segment) : encode_call :=
  mkEncode (source_path task_id ext) (seg_index sg) (seg_start sg)
           (seg_end sg) tr (clip_path task_id (seg_index sg)).

Lemma plan_is_segment_plan : segment_plan (duration v) clip_duration = Ret plan.
Proof. now apply segment_plan_ok. Qed.

Lemma loop_clean s :
  exists s',
    for_each (Py.range n)
      (clip_body E task_id (source_path task_id ext) v clip_duration n) s
    = (s', Ret tt)
    /\ self_clips s'
       = self_clips s ++ map (fun sg => clip_path task_id (seg_index sg)) plan
    /\ encodes s' = encodes s ++ map request plan
    /\ map snap_progress (writes s')
       = map snap_progress (writes s)
         ++ map (fun sg => progress_of n (seg_index sg)) plan
    /\ map snap_status (writes s')
       = map snap_status (writes s) ++ map (fun _ => processing) plan.
Proof.
  destruct (Z.eq_dec n 0) as [Hz|Hnz].
  - exists s. subst plan. rewrite Hz. simpl. rewrite !app_nil_r. auto.
  - apply (for_each_clean E task_id (source_path task_id ext) v tr
             clip_duration n Hresize Hcodec (Py.range n) Hnz s).
Qed.

Lemma cut_clean s :
  exists s',
    cut_video_into_clips E task_id (source_path task_id ext) clip_duration s
    = (s', Ret (self_clips s'))
    /\ self_clips s'
       = self_clips s ++ map (fun sg => clip_path task_id (seg_index sg)) plan
    /\ encodes s' = encodes s ++ map request plan
    /\ map snap_progress (writes s')
       = map snap_progress (writes s)
         ++ [40; 50] ++ map (fun sg => progress_of n (seg_index sg)) plan
    /\ map snap_status (writes s')
       = map snap_status (writes s)
         ++ [processing; processing] ++ map (fun _ => processing) plan.
Proof.
  destruct (update_status_run task_id processing 40 MsgAnalysing s)
    as (s1 & Hu1 & _ & _ & Hc1 & Hw1 & He1).
  destruct (update_status_run task_id processing 50 (MsgCreating n) s1)
    as (s2 & Hu2 & _ & _ & Hc2 & Hw2 & He2).
  destruct (loop_clean s2) as (s3 & Hloop & Hc3 & He3 & Hp3 & Hst3).
  exists s3. split.
  - unfold cut_video_into_clips. rewrite run_bind, Hu1.
    unfold try_except. rewrite run_bind. unfold lift at 1. rewrite Hopen.
    rewrite run_bind. unfold lift, num_clips.
    rewrite Py_truediv_ok by now apply inject_Z_nonzero.
    cbn [mbind outcome_bind mret outcome_ret]. fold n.
    rewrite run_bind, Hu2. rewrite run_bind, Hloop. reflexivity.
  - rewrite Hc3, He3, Hp3, Hst3, Hc2, He2, Hw2, Hc1, He1, Hw1.
    rewrite !map_app, <- !app_assoc. simpl. repeat split; reflexivity.
Qed.

(** Without failures the task does what sections 3 and 4.3 describe: one
    codec request and one artifact per planned segment, [completed] written
    once, last, and progress values 0, 10, 30, 40, 50, then one value
    within 50..95 per planned segment, then 100, that never decrease.
    The values of the segments themselves are not stated: the code
    computes [(i / num_clips) * 45] in doubles, where the product can
    fall just below the integer the exact fraction gives. *)
Theorem clean_run :
  exists s',
    run_task E task_id url clip_duration = (s', Ret tt)
    /\ segment_plan (duration v) clip_duration = Ret plan
    /\ encodes s' = map request plan
    /\ tasks s' !! task_id
       = Some (mkSnapshot completed 100 (MsgDone (length plan))
                 (map (fun sg => name (clip_path task_id (seg_index sg)))
                      plan))
    /\ map snap_status (writes s')
       = [starting; downloading; downloaded; processing; processing]
         ++ map (fun _ => processing) plan ++ [completed]
    /\ (exists per_segment,
          map snap_progress (writes s')
          = [0; 10; 30; 40; 50] ++ per_segment ++ [100]
          /\ length per_segment = length plan
          /\ Forall (fun p => 50 <= p <= 95) per_segment)
    /\ non_decreasing (map snap_progress (writes s'))
    /\ Forall (fun p => 0 <= p <= 100) (map snap_progress (writes s')).
Proof.
  set (s0 := init (submit task_id empty_state)).
  destruct (process_video_cases E task_id url clip_duration s0)
    as [(e & _ & Hx & _)
       |(ext' & title' & s1 & s2 & clips & s' & Hx & Hdl & Hcut & _
         & Hrun & Hend)]; [congruence|].
  assert (ext' = ext /\ title' = title) as [-> ->] by (split; congruence).
  destruct Hend as [(_ & _ & Hsnap & Hw & He)|(e & Hrm & _)];
    [|congruence].
  destruct (download_video_succeeds E task_id url s0 ext title Hdownload)
    as (s1' & Hdl' & _ & He1 & Hc1 & Hw1).
  assert (s1' = s1) as -> by congruence.
  destruct (cut_clean s1) as (s2' & Hcut' & Hc2 & He2 & Hp2 & Hst2).
  assert (s2' = s2 /\ clips = self_clips s2) as [-> ->]
    by (split; congruence).
  assert (Hlen : length (self_clips s2) = length plan).
  { rewrite Hc2, Hc1. simpl. now rewrite length_map. }
  assert (Hprog : map snap_progress (writes s')
                  = [0; 10; 30; 40; 50]
                    ++ map (fun sg => progress_of n (seg_index sg)) plan
                    ++ [100]).
  { rewrite Hw, map_app, Hp2, Hw1. reflexivity. }
  assert (Hbounds : forall y,
             In y (map (fun sg => progress_of n (seg_index sg)) plan) ->
             50 <= y <= 95).
  { intros y Hy. apply in_map_iff in Hy as [sg [<- Hsg]].
    apply plan_loop_index, in_range in Hsg.
    now apply progress_of_bounds. }
  exists s'. split.
  { unfold run_task, process_video_task. rewrite run_bind. exact Hrun. }
  split; [apply plan_is_segment_plan|].
  split; [rewrite He, He2, He1; reflexivity|].
  split.
  { rewrite Hsnap, Hlen, Hc2, Hc1. simpl. now rewrite map_map. }
  split.
  { rewrite Hw, map_app, Hst2, Hw1. reflexivity. }
  split.
  { exists (map (fun sg => progress_of n (seg_index sg)) plan).
    split; [exact Hprog|]. split; [apply length_map|].
    apply Forall_forall. intros y Hy.
    now apply list_elem_of_In, Hbounds in Hy. }
  rewrite Hprog. split.
  - change ([0; 10; 30; 40; 50] ++ ?l) with (0 :: 10 :: 30 :: 40 :: 50 :: l).
    assert (Hall : forall y,
               In y (map (fun sg => progress_of n (seg_index sg)) plan
                     ++ [100]) -> 50 <= y).
    { intros y Hy. apply in_app_or in Hy as [Hy|[<-|[]]]; [|lia].
      apply Hbounds in Hy. lia. }
    assert (Htail : non_decreasing
              (map (fun sg => progress_of n (seg_index sg)) plan ++ [100])).
    { apply non_decreasing_snoc.
      - intros y Hy. apply Hbounds in Hy. lia.
      - destruct (Z_lt_le_dec n 0) as [Hneg|Hpos].
        + subst plan. rewrite range_nonpos by lia. exact I.
        + apply (plan_progress_sorted n clip_duration (duration v)
                   (Z.to_nat n) 0). lia. }
    do 4 (apply non_decreasing_step; [lia|]).
    apply non_decreasing_cons; [exact Hall | exact Htail].
  - apply Forall_app. split; [|apply Forall_app; split].
    + repeat constructor; lia.
    + apply Forall_forall. intros y Hy.
      apply list_elem_of_In, Hbounds in Hy. lia.
    + repeat constructor; lia.
Qed.

End CleanTask.

(** The failure-free run of a 180 s video in 65 s segments. *)
Lemma clean_run_three_segments :
  exists s',
    run_task (all_succeed 180) "t1" "url" 65 = (s', Ret tt)
    /\ tasks s' !! "t1"%string
       = Some (mkSnapshot completed 100 (MsgDone 3)
                 ["clip_001.mp4"; "clip_002.mp4"; "clip_003.mp4"]%string)
    /\ map snap_status (writes s')
       = [starting; downloading; downloaded; processing; processing;
          processing; processing; processing; completed]
    /\ non_decreasing (map snap_progress (writes s')).
Proof.
  destruct (clean_run (all_succeed 180) "t1" "url" "mp4" "title"
              (mkVideo 180 (1920, 1080))
              (mkTransform (CropX 656 607) (1080, 1920)) 65
              eq_refl eq_refl eq_refl (fun _ => eq_refl) eq_refl
              ltac:(lia))
    as (s' & Hrun & _ & _ & Hsnap & Hst & _ & Hmono & _).
  exists s'. split; [exact Hrun|]. split; [|split].
  - rewrite Hsnap. vm_compute. reflexivity.
  - rewrite Hst. vm_compute. reflexivity.
  - exact Hmono.
Defined.

(** * Further properties of the code *)

(** ** Planner: what a kept segment looks like *)

Lemma plan_loop_entry idxs cd total sg :
  In sg (plan_loop idxs cd total) ->
  In (seg_index sg) idxs
  /\ seg_start sg = start_time (seg_index sg) cd
  /\ seg_end sg = end_time (seg_index sg) cd total
  /\ too_short (seg_start sg) (seg_end sg) = false.
Proof.
  induction idxs as [|i idxs IH]; simpl; [tauto|].
  destruct (too_short (start_time i cd) (end_time i cd total)) eqn:Hshort.
  - intros H. destruct (IH H) as (H1 & H2). split; [now right | exact H2].
  - intros [<-|H].
    + simpl. repeat split; [now left | exact Hshort].
    + destruct (IH H) as (H1 & H2). split; [now right | exact H2].
Qed.

(** Every segment handed to the codec starts at a multiple of the clip
    duration, lasts at least 30 seconds and at most the clip duration, and
    ends no later than the video. *)
Theorem planned_segment_bounds (total : Q) (cd : Z) p sg :
  0 < cd ->
  segment_plan total cd = Ret p ->
  In sg p ->
  0 <= seg_index sg
  /\ seg_start sg = inject_Z (seg_index sg * cd)
  /\ (0 <= seg_start sg)%Q
  /\ (30 <= seg_end sg - seg_start sg)%Q
  /\ (seg_end sg - seg_start sg <= inject_Z cd)%Q
  /\ (seg_end sg <= total)%Q.
Proof.
  intros Hcd Hp Hin. rewrite segment_plan_ok in Hp by lia.
  injection Hp as <-.
  apply plan_loop_entry in Hin as (Hidx & Hs & He & Hkeep).
  apply in_range in Hidx.
  unfold too_short in Hkeep. apply Py_lt_false_iff in Hkeep.
  set (i := seg_index sg) in *.
  assert (Hend1 : (seg_end sg <= inject_Z ((i + 1) * cd))%Q).
  { rewrite He. unfold end_time, Py.min.
    destruct (Py.lt total (inject_Z ((i + 1) * cd))) eqn:Hlt.
    - apply Py_lt_iff in Hlt. lra.
    - lra. }
  assert (Hend2 : (seg_end sg <= total)%Q).
  { rewrite He. unfold end_time, Py.min.
    destruct (Py.lt total (inject_Z ((i + 1) * cd))) eqn:Hlt.
    - lra.
    - apply Py_lt_false_iff in Hlt. exact Hlt. }
  assert (Hs0 : (0 <= seg_start sg)%Q).
  { rewrite Hs. unfold start_time.
    assert (Hz : 0 <= i * cd) by nia. rewrite Zle_Qle in Hz. exact Hz. }
  assert (Hlen : (inject_Z ((i + 1) * cd) - seg_start sg == inject_Z cd)%Q).
  { rewrite Hs. unfold start_time.
    rewrite !inject_Z_mult, inject_Z_plus. ring. }
  repeat split; try assumption; try lia.
  revert Hend1 Hlen.
  generalize (inject_Z ((i + 1) * cd)) (seg_end sg) (seg_start sg)
             (inject_Z cd).
  intros a b c d H1 H2. lra.
Qed.

Lemma planned_segment_bounds_witness :
  (30 <= seg_end (mkSegment 1 65 100) - seg_start (mkSegment 1 65 100))%Q.
Proof.
  apply (planned_segment_bounds 100 65
           [mkSegment 0 0 65; mkSegment 1 65 100] (mkSegment 1 65 100)).
  - lia.
  - reflexivity.
  - right. left. reflexivity.
Defined.

(** A clip duration below the 30-second minimum never yields a clip: a
    positive one makes every candidate too short, a negative one makes
    the candidate count non-positive. *)
Theorem short_clip_duration_empty_plan (total : Q) (cd : Z) :
  (0 <= total)%Q -> cd < 30 -> cd <> 0 ->
  segment_plan total cd = Ret [].
Proof.
  intros Htotal Hlt Hnz. rewrite segment_plan_ok by assumption. f_equal.
  destruct (Z_lt_le_dec cd 0) as [Hneg|Hpos].
  - (* negative: no candidate *)
    rewrite range_nonpos; [reflexivity|].
    change 0 with (Qceiling 0). apply Qceiling_resp_le.
    assert (Hinv : (/ inject_Z cd <= 0)%Q).
    { destruct cd as [|p|p]; try lia. unfold Qle. simpl. lia. }
    unfold Qdiv. revert Hinv. generalize (/ inject_Z cd)%Q. intros q Hq.
    assert (H : (0 <= total * - q)%Q)
      by (apply Qmult_le_0_compat; lra).
    lra.
  - (* positive: every candidate is shorter than 30 s *)
    assert (Hall : forall idxs, plan_loop idxs cd total = []).
    { induction idxs as [|i idxs IH]; [reflexivity|]. simpl.
      replace (too_short (start_time i cd) (end_time i cd total)) with true;
        [exact IH|].
      symmetry. unfold too_short. apply Py_lt_iff.
      assert (Hend : (end_time i cd total <= inject_Z ((i + 1) * cd))%Q).
      { unfold end_time, Py.min.
        destruct (Py.lt total (inject_Z ((i + 1) * cd))) eqn:Hl.
        - apply Py_lt_iff in Hl. lra.
        - lra. }
      assert (Hlen : (inject_Z ((i + 1) * cd) - start_time i cd
                      == inject_Z cd)%Q).
      { unfold start_time. rewrite !inject_Z_mult, inject_Z_plus. ring. }
      assert (Hcd : (inject_Z cd < 30)%Q).
      { change 30%Q with (inject_Z 30). rewrite <- Zlt_Qlt. exact Hlt. }
      revert Hend Hlen Hcd.
      generalize (inject_Z ((i + 1) * cd)) (end_time i cd total)
                 (start_time i cd) (inject_Z cd).
      intros a b c d H1 H2 H3. lra. }
    apply Hall.
Qed.

Lemma short_clip_duration_empty_plan_witness : segment_plan 100 20 = Ret [].
Proof.
  apply (short_clip_duration_empty_plan 100 20).
  - unfold Qle; simpl; lia.
  - lia.
  - lia.
Defined.

(** ** Planner: how many clips *)

Lemma last_candidate_end total cd m :
  (total <= inject_Z (m * cd))%Q ->
  (end_time (m - 1) cd total == total)%Q.
Proof.
  intros Hup. unfold end_time. replace (m - 1 + 1) with m by lia.
  unfold Py.min.
  destruct (Py.lt total (inject_Z (m * cd))) eqn:Hlt; [reflexivity|].
  apply Py_lt_false_iff in Hlt. lra.
Qed.

Lemma floor_brackets total cd :
  0 < cd ->
  let f := Qfloor (total / inject_Z cd) in
  (inject_Z (f * cd) <= total)%Q /\ (total < inject_Z ((f + 1) * cd))%Q.
Proof.
  intros Hcd f.
  assert (Hpos : (0 < inject_Z cd)%Q) by (unfold Qlt; simpl; lia).
  assert (Heq : (total / inject_Z cd * inject_Z cd == total)%Q)
    by (field; lra).
  split.
  - pose proof (Qfloor_le (total / inject_Z cd)) as H. fold f in H.
    apply (Qmult_le_r _ _ (inject_Z cd) Hpos) in H.
    rewrite inject_Z_mult. now rewrite Heq in H.
  - pose proof (Qlt_floor (total / inject_Z cd)) as H. fold f in H.
    apply (Qmult_lt_r _ _ (inject_Z cd) Hpos) in H.
    rewrite inject_Z_mult. now rewrite Heq in H.
Qed.

(** For a clip duration of at least 30 seconds the number of clips is the
    number of whole clip durations in the video, plus one when the
    remainder lasts at least 30 seconds. *)
Theorem clip_count (total : Q) (cd : Z) :
  (0 <= total)%Q -> 30 <= cd ->
  let whole := Qfloor (total / inject_Z cd) in
  let remainder := (total - inject_Z (whole * cd))%Q in
  exists p,
    segment_plan total cd = Ret p
    /\ Z.of_nat (length p)
       = if Qle_bool 30 remainder then whole + 1 else whole.
Proof.
  intros Htotal Hcd whole remainder.
  set (n := Qceiling (total / inject_Z cd)).
  pose proof (ceil_upper total cd Hcd) as Hup.
  pose proof (ceil_lower total cd Hcd) as Hlow.
  pose proof (n_nonneg total cd Htotal Hcd) as Hn0.
  destruct (floor_brackets total cd ltac:(lia)) as [Hf1 Hf2].
  fold n in Hup, Hlow, Hn0. fold whole in Hf1, Hf2.
  assert (Hle : whole <= n).
  { assert (H : (inject_Z (whole * cd) <= inject_Z (n * cd))%Q) by lra.
    rewrite <- Zle_Qle in H. nia. }
  assert (Hge : n <= whole + 1).
  { assert (H : (inject_Z ((n - 1) * cd) < inject_Z ((whole + 1) * cd))%Q)
      by lra.
    rewrite <- Zlt_Qlt in H. nia. }
  exists (plan_loop (Py.range n) cd total).
  split; [apply segment_plan_ok; lia|].
  destruct (Z.eq_dec n 0) as [Hz|Hnz].
  - (* empty video *)
    rewrite Hz in *. rewrite Z.mul_0_l in Hup.
    change (inject_Z 0) with 0%Q in Hup.
    assert (Hw0 : whole = 0).
    { assert (H : 0 <= whole * cd).
      { destruct (Z_lt_le_dec (whole * cd) 0) as [Hneg|]; [|assumption].
        exfalso. assert (Hw : whole <= -1) by nia.
        assert (Hb : (whole + 1) * cd <= 0) by nia.
        rewrite Zle_Qle in Hb. change (inject_Z 0) with 0%Q in Hb. lra. }
      nia. }
    simpl. replace (Qle_bool 30 remainder) with false; [lia|].
    symmetry. apply not_true_is_false. intros Hb.
    apply Qle_bool_iff in Hb. unfold remainder in Hb.
    rewrite Hw0, Z.mul_0_l in Hb. change (inject_Z 0) with 0%Q in Hb. lra.
  - assert (Hm : 0 <= n - 1) by lia.
    destruct (prefix_plan total cd Hcd (n - 1) Hm) as [_ Hl]; [lra|].
    rewrite range_snoc by lia. rewrite plan_loop_app, length_app.
    pose proof (last_candidate_end total cd n Hup) as He.
    simpl plan_loop.
    set (s := start_time (n - 1) cd) in *.
    set (e := end_time (n - 1) cd total) in *.
    assert (Hsdef : s = inject_Z ((n - 1) * cd)) by reflexivity.
    clearbody s e.
    destruct (Z.eq_dec n whole) as [Hsame|Hdiff].
    + (* the duration is a whole number of clips *)
      assert (Hf1' : (inject_Z (n * cd) <= total)%Q)
        by (rewrite Hsame; exact Hf1).
      assert (Hrem : (remainder == 0)%Q).
      { unfold remainder. rewrite <- Hsame. lra. }
      replace (Qle_bool 30 remainder) with false.
      2:{ symmetry. apply not_true_is_false. intros Hb.
          apply Qle_bool_iff in Hb. lra. }
      replace (too_short s e) with false; [simpl; lia|].
      symmetry. unfold too_short. apply Py_lt_false_iff.
      assert (Hlen : (inject_Z (n * cd) - s == inject_Z cd)%Q).
      { rewrite Hsdef. replace (n * cd) with ((n - 1) * cd + cd) by ring.
        rewrite inject_Z_plus. ring. }
      assert (Hc : (30 <= inject_Z cd)%Q).
      { change 30%Q with (inject_Z 30). rewrite <- Zle_Qle. exact Hcd. }
      unfold remainder in Hrem. rewrite <- Hsame in Hrem.
      revert He Hrem Hlen Hc.
      generalize (inject_Z (n * cd)) (inject_Z cd).
      intros a b H1 H2 H3 H4. lra.
    + (* a remainder follows the whole clips *)
      assert (Hn : n = whole + 1) by lia.
      assert (Hs : s = inject_Z (whole * cd)).
      { rewrite Hsdef. f_equal. nia. }
      unfold too_short, Py.lt.
      assert (Hb : Qle_bool 30 (e - s) = Qle_bool 30 remainder).
      { unfold remainder. rewrite <- Hs.
        destruct (Qle_bool 30 (e - s)) eqn:H1;
          destruct (Qle_bool 30 (total - s)) eqn:H2; try reflexivity.
        - apply Qle_bool_iff in H1.
          assert (H3 : (30 <= total - s)%Q) by lra.
          apply Qle_bool_iff in H3. congruence.
        - apply Qle_bool_iff in H2.
          assert (H3 : (30 <= e - s)%Q) by lra.
          apply Qle_bool_iff in H3. congruence. }
      rewrite Hb. destruct (Qle_bool 30 remainder); simpl; lia.
Qed.

Lemma clip_count_witness :
  exists p, segment_plan 100 65 = Ret p /\ Z.of_nat (length p) = 2.
Proof.
  apply (clip_count 100 65).
  - unfold Qle; simpl; lia.
  - lia.
Defined.

(** ** Geometry transform in integers *)

Lemma Qfloor_half_diff a b :
  Qfloor (inject_Z a / 2 - inject_Z b / 2) = (a - b) / 2.
Proof.
  rewrite Zdiv_Qdiv. apply Qfloor_comp.
  unfold Qeq, Qminus, Qdiv, Qplus, Qopp, Qmult, Qinv, inject_Z. simpl. lia.
Qed.

Lemma Qfloor_times_ratio h :
  Qfloor (inject_Z h * (inject_Z 1080 / inject_Z 1920)) = (1080 * h) / 1920.
Proof.
  rewrite Zdiv_Qdiv. apply Qfloor_comp.
  unfold Qeq, Qdiv, Qmult, Qinv, inject_Z. simpl. lia.
Qed.

Lemma Qfloor_over_ratio w :
  Qfloor (inject_Z w / (inject_Z 1080 / inject_Z 1920)) = (1920 * w) / 1080.
Proof.
  rewrite Zdiv_Qdiv. apply Qfloor_comp.
  unfold Qeq, Qdiv, Qmult, Qinv, inject_Z. simpl. lia.
Qed.

Lemma wide_integer w h :
  0 < h ->
  (inject_Z 1080 / inject_Z 1920 < inject_Z w / inject_Z h)%Q
  <-> 1080 * h < 1920 * w.
Proof.
  intros Hh. destruct h as [|p|p]; try lia.
  unfold Qlt, Qdiv, Qmult, Qinv, inject_Z. simpl. lia.
Qed.

Lemma resize_in_integers (w h : Z) :
  0 < w -> 0 < h ->
  resize_to_tiktok_format (w, h)
  = Ret (mkTransform
           (if 1080 * h <? 1920 * w
            then let new_width := 1080 * h / 1920 in
                 CropX ((w - new_width) / 2) new_width
            else let new_height := 1920 * w / 1080 in
                 CropY ((h - new_height) / 2) new_height)
           (1080, 1920)).
Proof.
  intros Hw Hh.
  destruct (Z.ltb_spec (1080 * h) (1920 * w)) as [Hwide|Htall].
  - rewrite (resize_wide w h Hh) by now apply wide_integer.
    cbv zeta. now rewrite Qfloor_times_ratio, Qfloor_half_diff.
  - rewrite (resize_tall w h Hw Hh).
    + cbv zeta. now rewrite Qfloor_over_ratio, Qfloor_half_diff.
    + rewrite wide_integer by assumption. lia.
Qed.

(** The transform computed with integer division only: a source wider
    than 9:16 is cropped to [1080*h/1920] columns starting at half the
    surplus, any other source to [1920*w/1080] rows. *)
Theorem resize_integer_form (w h : Z) :
  0 < w -> 0 < h ->
  resize_to_tiktok_format (w, h)
  = Ret (mkTransform
           (if 1080 * h <? 1920 * w
            then let new_width := 1080 * h / 1920 in
                 CropX ((w - new_width) / 2) new_width
            else let new_height := 1920 * w / 1080 in
                 CropY ((h - new_height) / 2) new_height)
           (1080, 1920)).
Proof. apply resize_in_integers. Qed.

Lemma resize_integer_form_witness :
  resize_to_tiktok_format (1280, 720)
  = Ret (mkTransform (CropX 437 405) (1080, 1920)).
Proof. apply (resize_integer_form 1280 720); lia. Defined.

(** The crop rectangle lies inside the source frame, is centred up to one
    pixel, and has the 9:16 ratio up to one pixel; a wide source always
    loses columns, a tall one keeps at least one row. *)
Theorem crop_inside_frame (w h : Z) (t : transform) :
  0 < w -> 0 < h ->
  resize_to_tiktok_format (w, h) = Ret t ->
  match tr_crop t with
  | CropX x1 new_width =>
      0 <= x1 /\ 0 <= new_width < w /\ x1 + new_width <= w
      /\ 0 <= (w - (x1 + new_width)) - x1 <= 1
      /\ 1920 * new_width <= 1080 * h < 1920 * (new_width + 1)
  | CropY y1 new_height =>
      0 <= y1 /\ 1 <= new_height <= h /\ y1 + new_height <= h
      /\ 0 <= (h - (y1 + new_height)) - y1 <= 1
      /\ 1080 * new_height <= 1920 * w < 1080 * (new_height + 1)
  end.
Proof.
  intros Hw Hh Ht. rewrite resize_in_integers in Ht by assumption.
  injection Ht as <-. simpl.
  destruct (Z.ltb_spec (1080 * h) (1920 * w)) as [Hwide|Htall]; cbv zeta.
  - pose proof (Z.div_mod (1080 * h) 1920 ltac:(lia)) as Hd.
    pose proof (Z.mod_pos_bound (1080 * h) 1920 ltac:(lia)) as Hm.
    set (nw := 1080 * h / 1920) in *.
    assert (Hnw : 0 <= nw < w) by lia.
    pose proof (Z.div_mod (w - nw) 2 ltac:(lia)) as Hd2.
    pose proof (Z.mod_pos_bound (w - nw) 2 ltac:(lia)) as Hm2.
    set (x1 := (w - nw) / 2) in *. lia.
  - pose proof (Z.div_mod (1920 * w) 1080 ltac:(lia)) as Hd.
    pose proof (Z.mod_pos_bound (1920 * w) 1080 ltac:(lia)) as Hm.
    set (nh := 1920 * w / 1080) in *.
    assert (Hnh : 1 <= nh <= h) by lia.
    pose proof (Z.div_mod (h - nh) 2 ltac:(lia)) as Hd2.
    pose proof (Z.mod_pos_bound (h - nh) 2 ltac:(lia)) as Hm2.
    set (y1 := (h - nh) / 2) in *. lia.
Qed.

Lemma crop_inside_frame_witness :
  0 <= 656 /\ 0 <= 607 < 1920 /\ 656 + 607 <= 1920
  /\ 0 <= (1920 - (656 + 607)) - 656 <= 1
  /\ 1920 * 607 <= 1080 * 1080 < 1920 * (607 + 1).
Proof.
  apply (crop_inside_frame 1920 1080
           (mkTransform (CropX 656 607) (1080, 1920))).
  - lia.
  - lia.
  - reflexivity.
Defined.

(** The transform fails exactly on a frame of height 0, with the
    [ZeroDivisionError] of [w / h]. *)
Theorem resize_fails_iff_zero_height (w h : Z) :
  (h = 0 -> resize_to_tiktok_format (w, h) = Raise ZeroDivisionError)
  /\ (h <> 0 -> exists t, resize_to_tiktok_format (w, h) = Ret t).
Proof.
  split.
  - intros ->. reflexivity.
  - intros Hh. unfold resize_to_tiktok_format.
    rewrite (Py_truediv_ok (inject_Z w) (inject_Z h))
      by now apply inject_Z_nonzero.
    cbn [mbind outcome_bind].
    rewrite (Py_truediv_ok (inject_Z 1080) (inject_Z 1920))
      by (unfold Qeq; simpl; lia).
    cbn [mbind outcome_bind].
    destruct (Py.lt _ _); [eexists; reflexivity|].
    rewrite Py_truediv_ok by (unfold Qeq; simpl; lia).
    eexists. reflexivity.
Qed.

Lemma resize_fails_iff_zero_height_witness :
  resize_to_tiktok_format (1920, 0) = Raise ZeroDivisionError
  /\ exists t, resize_to_tiktok_format (0, -3) = Ret t.
Proof.
  split.
  - apply (resize_fails_iff_zero_height 1920 0). reflexivity.
  - apply (resize_fails_iff_zero_height 0 (-3)). lia.
Defined.

(** ** Artifact names *)

Lemma string_length_app (s t : string) :
  String.length (s ++ t) = (String.length s + String.length t)%nat.
Proof. induction s as [|c s IH]; simpl; [reflexivity | now rewrite IH]. Qed.

Lemma string_app_inv_tail (s1 s2 t : string) :
  (s1 ++ t = s2 ++ t)%string -> s1 = s2.
Proof.
  revert s2. induction s1 as [|c s1 IH]; intros [|c2 s2] H.
  - reflexivity.
  - apply (f_equal String.length) in H.
    rewrite !string_length_app in H. simpl in H. lia.
  - apply (f_equal String.length) in H.
    rewrite !string_length_app in H. simpl in H. lia.
  - simpl in H. injection H as -> H. f_equal. now apply IH.
Qed.

Lemma zeros_length k : String.length (Py.zeros k) = k.
Proof. induction k as [|k IH]; simpl; [reflexivity | now rewrite IH]. Qed.

Lemma parse_zeros k s :
  parse_decimal (Py.zeros k ++ s) = parse_decimal s.
Proof.
  unfold parse_decimal. induction k as [|k IH]; [reflexivity|].
  simpl. destruct (NilEmpty.uint_of_string (Py.zeros k ++ s)) as [d|];
    destruct (NilEmpty.uint_of_string s) as [d'|]; simpl in *;
    congruence.
Qed.

Lemma parse_digits z : parse_decimal (Py.digits z) = Some (Z.abs_N z).
Proof.
  unfold parse_decimal, Py.digits, NilZero.string_of_uint.
  assert (Hnil : N.to_uint (Z.abs_N z) <> Decimal.Nil).
  { destruct (Z.abs_N z) as [|p]; simpl; [discriminate|].
    apply DecimalPos.Unsigned.to_uint_nonnil. }
  destruct (N.to_uint (Z.abs_N z)) eqn:Hd; try contradiction;
    rewrite <- Hd, NilEmpty.usu; simpl; f_equal;
    apply DecimalN.Unsigned.of_to.
Qed.

(** The padded index can be read back, *)
Lemma parse_format_03d z :
  0 <= z -> parse_decimal (Py.format_03d z) = Some (Z.to_N z).
Proof.
  intros Hz. unfold Py.format_03d.
  destruct (Z.ltb_spec z 0) as [Hneg|_]; [lia|].
  rewrite parse_zeros, parse_digits. f_equal. lia.
Qed.

(** so distinct segments get distinct file names, every name at least
    three digits wide: no segment overwrites the output of another. *)
Theorem clip_names_distinct (task_id : string) (i j : Z) :
  0 <= i -> 0 <= j ->
  (name (clip_path task_id i) = name (clip_path task_id j) -> i = j)
  /\ (path_str (clip_path task_id i) = path_str (clip_path task_id j)
      -> i = j)
  /\ (3 <= String.length (Py.format_03d (i + 1)))%nat.
Proof.
  intros Hi Hj.
  assert (Hname : name (clip_path task_id i) = name (clip_path task_id j)
                  -> i = j).
  { unfold clip_path. cbn [name]. intros H.
    apply String.app_inj, string_app_inv_tail in H.
    apply (f_equal parse_decimal) in H.
    rewrite !parse_format_03d in H by lia.
    injection H as H. lia. }
  split; [exact Hname|]. split.
  - unfold path_str. intros H. apply Hname.
    apply String.app_inj in H. now apply String.app_inj in H.
  - unfold Py.format_03d.
    destruct (Z.ltb_spec (i + 1) 0) as [Hneg|_]; [lia|].
    rewrite string_length_app, zeros_length. lia.
Qed.

Lemma clip_names_distinct_witness :
  (3 <= String.length (Py.format_03d (0 + 1)))%nat.
Proof. apply (clip_names_distinct "t1" 0 0); lia. Defined.

(** ** The state a worker ends in *)

Section FinalState.

Variable E : env.
Variable task_id : string.

(** After a failed download the worker has written [downloading], then
    [error], and nothing else has happened. *)
Lemma process_video_download_failed url cd s e :
  extract_info E url = Raise e ->
  process_video E task_id url cd s
  = update_status task_id error 0 (MsgDownloadError e)
      (fst (update_status task_id downloading 10 MsgDownloading s)).
Proof.
  intros Hx.
  cbv [process_video download_video try_except ydl_download update_status
       lift modify mbind M_bind mret M_ret fst].
  rewrite Hx. reflexivity.
Qed.

(** After a successful download the worker cuts, removes the source and
    writes [completed], or writes [error] when [os.remove] raises. *)
Lemma process_video_downloaded url cd s ext title :
  extract_info E url = Ret (ext, title) ->
  let vp := source_path task_id ext in
  exists s1 s2 clips,
    download_video E task_id url s = (s1, Ret (Some vp, Some title))
    /\ cut_video_into_clips E task_id vp cd s1 = (s2, Ret clips)
    /\ vp ∈ files s2
    /\ process_video E task_id url cd s
       = match os_remove E vp with
         | None =>
             update_status task_id completed 100 (MsgDone (length clips))
               (fst (remove E vp s2))
         | Some e => update_status task_id error 0 (MsgError e) s2
         end.
Proof.
  intros Hx vp.
  destruct (download_video_succeeds E task_id url s ext title Hx)
    as (s1 & Hdl & Hf1 & _).
  destruct (cut_video_into_clips_returns E task_id vp cd s1)
    as (s2 & clips & Hcut).
  assert (Hin : vp ∈ files s2).
  { pose proof (cut_video_into_clips_files E task_id vp cd s1) as Hg.
    rewrite Hcut in Hg. apply Hg. rewrite Hf1.
    apply elem_of_union_l. now apply elem_of_singleton. }
  exists s1, s2, clips. repeat (split; [assumption|]).
  unfold process_video, try_except.
  rewrite (run_bind_ret _ _ _ _ _ Hdl).
  fold vp. rewrite (source_path_truthy task_id ext : falsy (Some vp) = false).
  rewrite (run_bind_ret _ _ _ _ _ Hcut).
  assert (Hex : bool_decide (vp ∈ files s2) = true)
    by now apply bool_decide_eq_true.
  cbv [os_path_exists gets mbind M_bind when_ remove raise modify fst].
  rewrite Hex. destruct (os_remove E vp); reflexivity.
Qed.

Lemma process_video_in_sync url cd s :
  registry_in_sync task_id (fst (process_video E task_id url cd s)).
Proof.
  destruct (extract_info E url) as [[ext title]|e] eqn:Hx.
  - destruct (process_video_downloaded url cd s ext title Hx)
      as (s1 & s2 & clips & _ & _ & _ & ->).
    destruct (os_remove E (source_path task_id ext));
      unfold registry_in_sync; simpl; apply lookup_insert_eq.
  - rewrite (process_video_download_failed url cd s e Hx).
    unfold registry_in_sync. simpl. apply lookup_insert_eq.
Qed.

(** When [process_video] returns, the registry entry of the task shows
    exactly the status, progress, message and clip names the worker
    object holds. *)
Theorem registry_in_sync_at_return url cd s :
  registry_in_sync task_id (fst (process_video E task_id url cd s)).
Proof. apply process_video_in_sync. Qed.

(** A failed download: the final snapshot is [error] with progress 0 and
    no clip names, no codec request is made, no file is created or
    deleted, and exactly two registry writes happened. *)
Theorem download_failure_outcome url cd s e :
  extract_info E url = Raise e ->
  let s' := fst (process_video_task E task_id url cd s) in
  tasks s' !! task_id = Some (mkSnapshot error 0 (MsgDownloadError e) [])
  /\ encodes s' = encodes s
  /\ files s' = files s
  /\ writes s'
     = writes s ++ [mkSnapshot downloading 10 MsgDownloading [];
                    mkSnapshot error 0 (MsgDownloadError e) []].
Proof.
  intros Hx s'. subst s'.
  unfold process_video_task. rewrite run_bind.
  change (modify init s) with (init s, Ret tt). cbv iota beta.
  rewrite (process_video_download_failed url cd (init s) e Hx). simpl.
  rewrite lookup_insert_eq, <- app_assoc. repeat split; reflexivity.
Qed.

End FinalState.

Lemma download_failure_outcome_witness :
  tasks (fst (process_video_task download_fails "t1" "url" 65
                                 (submit "t1" empty_state))) !! "t1"%string
  = Some (mkSnapshot error 0
            (MsgDownloadError (DownloadError "unavailable")) []).
Proof.
  apply (download_failure_outcome download_fails "t1" "url" 65
           (submit "t1" empty_state) (DownloadError "unavailable")).
  reflexivity.
Defined.

(** ** A worker only touches its own registry entry *)

(** Case analysis on what a frame goal branches on. *)
Ltac frame_case :=
  match goal with
  | |- keeps _ (match ?x with _ => _ end) => destruct x
  end.

Lemma other_tasks_kept_refl task_id s : other_tasks_kept task_id s s.
Proof. intros k _. reflexivity. Qed.

Lemma other_tasks_kept_trans task_id a b c :
  other_tasks_kept task_id a b -> other_tasks_kept task_id b c ->
  other_tasks_kept task_id a c.
Proof. intros H1 H2 k Hk. now rewrite H2, H1. Qed.

Section Isolation.

Variable E : env.
Variable task_id : string.

Let R := other_tasks_kept task_id.

Lemma update_status_others st p msg : keeps R (update_status task_id st p msg).
Proof. intros s k Hk. simpl. now apply lookup_insert_ne. Qed.

Lemma encode_others c : keeps R (encode E c).
Proof.
  intros s k Hk. unfold encode. rewrite run_bind. simpl.
  destruct (write_videofile E c); reflexivity.
Qed.

Lemma append_clip_others p : keeps R (append_clip p).
Proof. intros s k Hk. reflexivity. Qed.

Lemma remove_others p : keeps R (remove E p).
Proof. intros s k Hk. unfold remove. destruct (os_remove E p); reflexivity. Qed.

Lemma ydl_download_others url : keeps R (ydl_download E task_id url).
Proof.
  intros s k Hk. unfold ydl_download. rewrite run_bind. unfold lift.
  destruct (extract_info E url) as [[ext title]|e]; reflexivity.
Qed.

Ltac others_leaf :=
  first [ apply update_status_others
        | apply encode_others
        | apply append_clip_others
        | apply remove_others
        | apply ydl_download_others ].

Ltac others_frame leaf :=
  repeat first
    [ progress
        frame_with (other_tasks_kept_refl task_id)
                   (other_tasks_kept_trans task_id) leaf
    | frame_case ].

Lemma download_video_others url : keeps R (download_video E task_id url).
Proof. unfold download_video. others_frame others_leaf. Qed.

Lemma clip_body_others vp v cd n i :
  keeps R (clip_body E task_id vp v cd n i).
Proof. unfold clip_body. others_frame others_leaf. Qed.

Lemma cut_video_into_clips_others vp cd :
  keeps R (cut_video_into_clips E task_id vp cd).
Proof.
  unfold cut_video_into_clips.
  others_frame ltac:(first [apply clip_body_others | others_leaf]).
Qed.

Lemma process_video_others url cd : keeps R (process_video E task_id url cd).
Proof.
  unfold process_video, os_path_exists.
  others_frame ltac:(first [ apply download_video_others
                           | apply cut_video_into_clips_others
                           | others_leaf ]).
Qed.

End Isolation.

(** Whatever happens to the task of one worker, the registry entries of
    all other tasks are left exactly as they were: none is created,
    changed or removed. *)
Theorem worker_isolation
  (E : env) (task_id url : string) (cd : Z) (s : state) (other : string) :
  other <> task_id ->
  tasks (fst (process_video_task E task_id url cd s)) !! other
  = tasks s !! other.
Proof.
  intros Hne. unfold process_video_task. rewrite run_bind.
  change (modify init s) with (init s, Ret tt). cbv iota beta.
  now rewrite (process_video_others E task_id url cd (init s) other Hne).
Qed.

Lemma worker_isolation_witness :
  tasks (fst (process_video_task (codec_fails_at 1 180) "t1" "url" 65
                (submit "t2" (submit "t1" empty_state)))) !! "t2"%string
  = Some initial_snapshot.
Proof.
  rewrite (worker_isolation (codec_fails_at 1 180) "t1" "url" 65
             (submit "t2" (submit "t1" empty_state)) "t2").
  - reflexivity.
  - discriminate.
Defined.

(** ** The artifact list *)

Lemma preserves_refl (I : state -> Prop) s : preserves I s s.
Proof. intros H. exact H. Qed.

Lemma preserves_trans (I : state -> Prop) a b c :
  preserves I a b -> preserves I b c -> preserves I a c.
Proof. unfold preserves. auto. Qed.

Lemma source_is_no_clip task_id ext i :
  source_path task_id ext <> path_str (clip_path task_id i).
Proof.
  unfold source_path, path_str, clip_path. cbn [parent name]. intros H.
  apply String.app_inj in H. cbn in H. discriminate H.
Qed.

Section Artifacts.

Variable E : env.
Variable task_id : string.

(** *** Listed clips are the outputs of the successful requests *)

Let R1 := preserves (clips_are_successes E).

Lemma update_status_successes st p msg :
  keeps R1 (update_status task_id st p msg).
Proof. intros s H. exact H. Qed.

Lemma ydl_download_successes url : keeps R1 (ydl_download E task_id url).
Proof.
  intros s H. unfold ydl_download. rewrite run_bind. unfold lift.
  destruct (extract_info E url) as [[ext title]|e]; exact H.
Qed.

Lemma clip_body_successes vp v cd n i :
  keeps R1 (clip_body E task_id vp v cd n i).
Proof.
  intros s H. unfold clip_body.
  destruct (too_short _ _); [exact H|].
  cbv [lift mbind M_bind update_status modify encode append_clip raise].
  destruct (Py.truediv _ _) as [q|e]; [|exact H].
  destruct (resize_to_tiktok_format _) as [tr|e]; [|exact H].
  destruct (write_videofile E _) as [e|] eqn:Hw;
    unfold clips_are_successes in *; simpl;
    rewrite List.filter_app, map_app; simpl;
    unfold codec_ok at 2; simpl; rewrite Hw; simpl;
    [now rewrite app_nil_r | now rewrite H].
Qed.

Ltac successes_frame leaf :=
  repeat first
    [ progress
        frame_with (preserves_refl (clips_are_successes E))
                   (preserves_trans (clips_are_successes E)) leaf
    | frame_case ].

Ltac successes_leaf :=
  first [ apply update_status_successes
        | apply ydl_download_successes
        | apply clip_body_successes ].

Lemma download_video_successes url : keeps R1 (download_video E task_id url).
Proof. unfold download_video. successes_frame successes_leaf. Qed.

Lemma cut_video_into_clips_successes vp cd :
  keeps R1 (cut_video_into_clips E task_id vp cd).
Proof. unfold cut_video_into_clips. successes_frame successes_leaf. Qed.

Lemma process_video_successes url cd s :
  clips_are_successes E s ->
  clips_are_successes E (fst (process_video E task_id url cd s)).
Proof.
  intros H.
  destruct (extract_info E url) as [[ext title]|e] eqn:Hx.
  - destruct (process_video_downloaded E task_id url cd s ext title Hx)
      as (s1 & s2 & clips & Hdl & Hcut & _ & ->).
    pose proof (download_video_successes url s H) as H1.
    rewrite Hdl in H1. simpl in H1.
    pose proof (cut_video_into_clips_successes
                  (source_path task_id ext) cd s1 H1) as H2.
    rewrite Hcut in H2. simpl in H2.
    unfold remove. destruct (os_remove E _); exact H2.
  - rewrite (process_video_download_failed E task_id url cd s e Hx).
    exact H.
Qed.

(** *** Listed clips are on disk *)

Let R2 := preserves (clips_on_disk task_id).

Lemma update_status_on_disk st p msg :
  keeps R2 (update_status task_id st p msg).
Proof. intros s H. exact H. Qed.

Lemma ydl_download_on_disk url : keeps R2 (ydl_download E task_id url).
Proof.
  intros s H. unfold ydl_download. rewrite run_bind. unfold lift.
  destruct (extract_info E url) as [[ext title]|e]; [|exact H].
  intros p Hp. destruct (H p Hp) as [Hi Hf]. split; [exact Hi|].
  simpl. now apply elem_of_union_r.
Qed.

Lemma clip_body_on_disk vp v cd n i :
  keeps R2 (clip_body E task_id vp v cd n i).
Proof.
  intros s H. unfold clip_body.
  destruct (too_short _ _); [exact H|].
  cbv [lift mbind M_bind update_status modify encode append_clip raise].
  destruct (Py.truediv _ _) as [q|e]; [|exact H].
  destruct (resize_to_tiktok_format _) as [tr|e]; [|exact H].
  destruct (write_videofile E _) as [e|]; [exact H|].
  intros p Hp. simpl in Hp. apply in_app_or in Hp as [Hp|[<-|[]]].
  - destruct (H p Hp) as [Hi Hf]. split; [exact Hi|].
    simpl. now apply elem_of_union_r.
  - split; [exists i; reflexivity|].
    simpl. apply elem_of_union_l. now apply elem_of_singleton.
Qed.

Ltac on_disk_frame leaf :=
  repeat first
    [ progress
        frame_with (preserves_refl (clips_on_disk task_id))
                   (preserves_trans (clips_on_disk task_id)) leaf
    | frame_case ].

Ltac on_disk_leaf :=
  first [ apply update_status_on_disk
        | apply ydl_download_on_disk
        | apply clip_body_on_disk ].

Lemma download_video_on_disk url : keeps R2 (download_video E task_id url).
Proof. unfold download_video. on_disk_frame on_disk_leaf. Qed.

Lemma cut_video_into_clips_on_disk vp cd :
  keeps R2 (cut_video_into_clips E task_id vp cd).
Proof. unfold cut_video_into_clips. on_disk_frame on_disk_leaf. Qed.

Lemma process_video_on_disk url cd s :
  clips_on_disk task_id s ->
  clips_on_disk task_id (fst (process_video E task_id url cd s)).
Proof.
  intros H.
  destruct (extract_info E url) as [[ext title]|e] eqn:Hx.
  - destruct (process_video_downloaded E task_id url cd s ext title Hx)
      as (s1 & s2 & clips & Hdl & Hcut & _ & ->).
    pose proof (download_video_on_disk url s H) as H1.
    rewrite Hdl in H1. simpl in H1.
    pose proof (cut_video_into_clips_on_disk
                  (source_path task_id ext) cd s1 H1) as H2.
    rewrite Hcut in H2. simpl in H2.
    unfold remove. destruct (os_remove E _); [exact H2|].
    intros p Hp. simpl in Hp. destruct (H2 p Hp) as [[i ->] Hf].
    split; [exists i; reflexivity|]. simpl.
    apply elem_of_difference. split; [exact Hf|].
    intros Hs. apply elem_of_singleton in Hs.
    symmetry in Hs. now apply source_is_no_clip in Hs.
  - rewrite (process_video_download_failed E task_id url cd s e Hx).
    exact H.
Qed.

End Artifacts.

(** Every clip the registry lists after [process_video] is the output of
    a codec request that succeeded, in request order, and every output of
    a successful request is listed. *)
Theorem listed_clips_are_successful_requests
  (E : env) (task_id url : string) (cd : Z) (s : state) :
  clips_are_successes E s ->
  let s' := fst (process_video E task_id url cd s) in
  self_clips s' = map enc_output (List.filter (codec_ok E) (encodes s'))
  /\ exists snap,
       tasks s' !! task_id = Some snap
       /\ snap_clips snap
          = map name
              (map enc_output (List.filter (codec_ok E) (encodes s'))).
Proof.
  intros H s'.
  pose proof (process_video_successes E task_id url cd s H) as H'.
  pose proof (process_video_in_sync E task_id url cd s) as Hsync.
  fold s' in H', Hsync. split; [exact H'|].
  eexists. split; [exact Hsync|]. simpl. now rewrite H'.
Qed.

Lemma listed_clips_are_successful_requests_witness :
  self_clips (fst (process_video (codec_fails_at 1 180) "t1" "url" 65
                                 (init (submit "t1" empty_state))))
  = map enc_output
      (List.filter (codec_ok (codec_fails_at 1 180))
         (encodes (fst (process_video (codec_fails_at 1 180) "t1" "url" 65
                                      (init (submit "t1" empty_state)))))).
Proof.
  apply (listed_clips_are_successful_requests (codec_fails_at 1 180)
           "t1" "url" 65 (init (submit "t1" empty_state))).
  reflexivity.
Defined.

Lemma listed_clips_on_disk
  (E : env) (task_id url : string) (cd : Z) (s : state) snap nm :
  let s' := fst (process_video_task E task_id url cd s) in
  tasks s' !! task_id = Some snap ->
  In nm (snap_clips snap) ->
  (output_dir task_id ++ "/" ++ nm)%string ∈ files s'.
Proof.
  intros s' Hsnap Hin. subst s'.
  unfold process_video_task in *. rewrite run_bind in *.
  change (modify init s) with (init s, Ret tt) in *. cbv iota beta in *.
  pose proof (process_video_in_sync E task_id url cd (init s)) as Hsync.
  unfold registry_in_sync in Hsync. rewrite Hsync in Hsnap.
  injection Hsnap as <-. simpl in Hin.
  apply in_map_iff in Hin as [p [<- Hp]].
  assert (H0 : clips_on_disk task_id (init s)) by (intros q []).
  destruct (process_video_on_disk E task_id url cd (init s) H0 p Hp)
    as [[i ->] Hf].
  exact Hf.
Qed.

(** Every clip name the registry lists when the worker is done names a
    file that exists in the output directory of the task, whatever
    failed on the way. *)
Theorem listed_clips_exist
  (E : env) (task_id url : string) (cd : Z) (s : state) snap nm :
  let s' := fst (process_video_task E task_id url cd s) in
  tasks s' !! task_id = Some snap ->
  In nm (snap_clips snap) ->
  (output_dir task_id ++ "/" ++ nm)%string ∈ files s'.
Proof. apply listed_clips_on_disk. Qed.

Lemma listed_clips_exist_witness :
  (output_dir "t1" ++ "/" ++ "clip_001.mp4")%string
  ∈ files (fst (process_video_task (codec_fails_at 1 180) "t1" "url" 65
                                   (submit "t1" empty_state))).
Proof.
  apply (listed_clips_exist (codec_fails_at 1 180) "t1" "url" 65
           (submit "t1" empty_state)
           (mkSnapshot completed 100 (MsgDone 0) ["clip_001.mp4"%string])).
  - vm_compute. reflexivity.
  - left. reflexivity.
Defined.

(** ** Codec requests follow the plan *)

Section Requests.

Variable E : env.
Variable task_id : string.
Variable video_path : string.
Variable v : video.
Variable tr : transform.
Variable clip_duration n : Z.

Hypothesis Hresize : resize_to_tiktok_format (size v) = Ret tr.

Let request (sg : segment) : encode_call :=
  mkEncode video_path (seg_index sg) (seg_start sg) (seg_end sg) tr
           (clip_path task_id (seg_index sg)).

(** One kept candidate: the request is logged, and the codec decides
    whether the loop goes on. *)
Lemma clip_body_request i s :
  n <> 0 ->
  too_short (start_time i clip_duration)
            (end_time i clip_duration (duration v)) = false ->
  let c := request (mkSegment i (start_time i clip_duration)
                      (end_time i clip_duration (duration v))) in
  exists s1,
    encodes s1 = encodes s ++ [c]
    /\ clip_body E task_id video_path v clip_duration n i s
       = (s1, match write_videofile E c with
              | None => Ret tt
              | Some e => Raise e
              end).
Proof.
  intros Hn Hkeep c. subst c. unfold request.
  cbn [seg_index seg_start seg_end].
  unfold clip_body. rewrite Hkeep.
  rewrite run_bind. unfold lift at 1.
  rewrite Py_truediv_ok by now apply inject_Z_nonzero.
  cbv [lift mbind M_bind update_status modify encode append_clip raise].
  rewrite Hresize. fold (clip_path task_id i).
  destruct (write_videofile E _);
    eexists; (split; [|reflexivity]); reflexivity.
Qed.

(** The requests of the loop are those of a prefix of the plan; all but
    the last of them succeeded, and the loop stops short of the whole
    plan only on a request that failed. *)
Lemma for_each_requests idxs :
  n <> 0 ->
  forall s,
  let plan := plan_loop idxs clip_duration (duration v) in
  let s' :=
    fst (for_each idxs (clip_body E task_id video_path v clip_duration n) s)
  in
  exists k,
    (k <= length plan)%nat
    /\ encodes s' = encodes s ++ map request (firstn k plan)
    /\ Forall (fun c => codec_ok E c = true)
              (map request (firstn (pred k) plan))
    /\ (k = length plan
        \/ exists sg, nth_error plan (pred k) = Some sg /\ (0 < k)%nat
                      /\ codec_ok E (request sg) = false).
Proof.
  intros Hn. induction idxs as [|i idxs IH]; intros s plan s'.
  - exists O. subst plan s'. simpl. rewrite app_nil_r.
    repeat split; auto.
  - subst plan s'. simpl plan_loop. simpl for_each.
    destruct (too_short (start_time i clip_duration)
                (end_time i clip_duration (duration v))) eqn:Hshort.
    + rewrite (run_bind_ret _ _ _ _ _
                 (clip_body_skip E task_id video_path v clip_duration n i s
                    Hshort)).
      apply IH.
    + destruct (clip_body_request i s Hn Hshort) as (s1 & He1 & Hrun).
      set (sg := mkSegment i (start_time i clip_duration)
                   (end_time i clip_duration (duration v))) in *.
      rewrite run_bind, Hrun.
      destruct (write_videofile E (request sg)) as [e|] eqn:Hw.
      * (* the codec fails here: the loop stops *)
        exists 1%nat. simpl. rewrite He1.
        repeat split; [lia | constructor |].
        right. exists sg. repeat split; [lia|].
        unfold codec_ok. now rewrite Hw.
      * destruct (IH s1) as (k & Hk & Henc & Hok & Hstop).
        exists (S k). simpl. rewrite Henc, He1, <- app_assoc.
        split; [lia|]. split; [reflexivity|]. split.
        -- destruct k as [|k]; [constructor|]. simpl.
           constructor; [|exact Hok].
           unfold codec_ok. now rewrite Hw.
        -- destruct Hstop as [->|(sg' & Hnth & Hpos & Hbad)]; [now left|].
           right. exists sg'. repeat split; [|lia|exact Hbad].
           destruct k as [|k]; [lia|]. exact Hnth.
Qed.

End Requests.

Section TaskRequests.

Variable E : env.
Variable task_id url ext title : string.
Variable v : video.
Variable tr : transform.
Variable clip_duration : Z.

Hypothesis Hdownload : extract_info E url = Ret (ext, title).
Hypothesis Hopen : open_video E (source_path task_id ext) = Ret v.
Hypothesis Hresize : resize_to_tiktok_format (size v) = Ret tr.
Hypothesis Hduration : clip_duration <> 0.

Let n : Z := Py.ceil (duration v / inject_Z clip_duration).
Let plan : list segment := plan_loop (Py.range n) clip_duration (duration v).
Let request (sg : segment) : encode_call :=
  mkEncode (source_path task_id ext) (seg_index sg) (seg_start sg)
           (seg_end sg) tr (clip_path task_id (seg_index sg)).

(** Cutting changes the request log only through its loop. *)
Lemma cut_encodes s :
  encodes (fst (cut_video_into_clips E task_id (source_path task_id ext)
                  clip_duration s))
  = encodes
      (fst (for_each (Py.range n)
              (clip_body E task_id (source_path task_id ext) v
                         clip_duration n)
              (fst (update_status task_id processing 50 (MsgCreating n)
                      (fst (update_status task_id processing 40
                              MsgAnalysing s)))))).
Proof.
  unfold cut_video_into_clips. rewrite run_bind.
  change (update_status task_id processing 40 MsgAnalysing s)
    with (fst (update_status task_id processing 40 MsgAnalysing s), Ret tt).
  cbv iota beta.
  set (s1 := fst (update_status task_id processing 40 MsgAnalysing s)).
  unfold try_except. rewrite run_bind. unfold lift at 1. rewrite Hopen.
  rewrite run_bind. unfold lift, num_clips.
  rewrite Py_truediv_ok by now apply inject_Z_nonzero.
  cbn [mbind outcome_bind mret outcome_ret]. fold n.
  rewrite run_bind.
  change (update_status task_id processing 50 (MsgCreating n) s1)
    with (fst (update_status task_id processing 50 (MsgCreating n) s1),
          Ret tt).
  cbv iota beta. rewrite run_bind.
  destruct (for_each _ _ _) as [s3 [u|e]]; reflexivity.
Qed.

(** For any codec: the requests it receives are those of the first [k]
    planned segments, in plan order, all with the same source and
    transform; the first [k - 1] succeeded; and [k] falls short of the
    plan only when request [k] failed. *)
Theorem codec_requests_follow_plan :
  let s' := fst (run_task E task_id url clip_duration) in
  segment_plan (duration v) clip_duration = Ret plan
  /\ exists k,
       (k <= length plan)%nat
       /\ encodes s' = map request (firstn k plan)
       /\ Forall (fun c => codec_ok E c = true)
                 (map request (firstn (pred k) plan))
       /\ (k = length plan
           \/ exists sg, nth_error plan (pred k) = Some sg /\ (0 < k)%nat
                         /\ codec_ok E (request sg) = false).
Proof.
  intros s'. split; [now apply segment_plan_ok|].
  set (s0 := init (submit task_id empty_state)).
  assert (Hrun : s' = fst (process_video E task_id url clip_duration s0)).
  { subst s'. unfold run_task, process_video_task. now rewrite run_bind. }
  destruct (process_video_downloaded E task_id url clip_duration s0
              ext title Hdownload)
    as (s1 & s2 & clips & Hdl & Hcut & _ & Hfinal).
  destruct (download_video_succeeds E task_id url s0 ext title Hdownload)
    as (s1' & Hdl' & _ & He1 & _).
  assert (s1' = s1) as -> by congruence.
  assert (He' : encodes s' = encodes s2).
  { rewrite Hrun, Hfinal. unfold remove.
    destruct (os_remove E _); reflexivity. }
  assert (He2 : encodes s2
                = encodes (fst (cut_video_into_clips E task_id
                                  (source_path task_id ext)
                                  clip_duration s1)))
    by now rewrite Hcut.
  rewrite cut_encodes in He2. rewrite He', He2.
  destruct (Z.eq_dec n 0) as [Hz|Hnz].
  - exists O. subst plan. rewrite Hz. simpl. rewrite He1.
    repeat split; auto.
  - set (s1b := fst (update_status task_id processing 50 (MsgCreating n)
                       (fst (update_status task_id processing 40
                               MsgAnalysing s1)))).
    destruct (for_each_requests E task_id (source_path task_id ext) v tr
                clip_duration n Hresize (Py.range n) Hnz s1b)
      as (k & Hk & Henc & Hok & Hstop).
    exists k. split; [exact Hk|]. split; [|split; assumption].
    rewrite Henc. subst s1b. simpl. now rewrite He1.
Qed.

End TaskRequests.

Lemma codec_requests_follow_plan_witness :
  exists k,
    (k <= 3)%nat
    /\ map enc_index
         (encodes (fst (run_task (codec_fails_at 1 180) "t1" "url" 65)))
       = map seg_index
           (firstn k [mkSegment 0 0 65; mkSegment 1 65 130;
                      mkSegment 2 130 180]).
Proof.
  destruct (codec_requests_follow_plan (codec_fails_at 1 180) "t1" "url"
              "mp4" "title" (mkVideo 180 (1920, 1080))
              (mkTransform (CropX 656 607) (1080, 1920)) 65
              eq_refl eq_refl eq_refl ltac:(lia))
    as (_ & k & Hk & Henc & _).
  exists k. split; [exact Hk|]. rewrite Henc, map_map. reflexivity.
Defined.

(** ** Routes *)

Lemma string_app_assoc (a b c : string) :
  ((a ++ b) ++ c = a ++ b ++ c)%string.
Proof.
  induction a as [|x a IH]; [reflexivity|].
  change (String x ((a ++ b) ++ c) = String x (a ++ b ++ c))%string.
  now rewrite IH.
Qed.

Lemma process_video_ends E task_id url cd s :
  exists s' snap,
    process_video E task_id url cd s = (s', Ret tt)
    /\ tasks s' !! task_id = Some snap
    /\ terminal (snap_status snap) = true.
Proof.
  destruct (process_video_cases E task_id url cd s)
    as [(e & s' & _ & Hrun & _ & _ & snap & Hsnap & Hst)
       |(ext & title & s1 & s2 & clips & s' & _ & _ & _ & _ & Hrun & Hend)].
  - exists s', snap. rewrite Hst. auto.
  - destruct Hend as [(_ & _ & Hsnap & _)|(e & _ & _ & Hsnap)];
      eexists s', _; (split; [exact Hrun|]); (split; [exact Hsnap|]);
      reflexivity.
Qed.

(** A request with a URL and a valid duration: the route answers with
    the task id, and the registry in which the worker thread is started
    holds [starting] for it.  The thread then goes one of two ways.  When
    the [mkdir] of the constructor returns, the thread returns and leaves
    [completed] or [error] for this id.  When the [mkdir] raises, the
    thread dies with that exception having written nothing: the entry
    stays [starting].  Either way the thread leaves the entry of every
    other id as it was before the request. *)
Theorem submitted_task_reaches_terminal_status
  (mkdir : string -> option exn) (E : env) (url : string)
  (c : ascii) (rest : string) (d : Z) (task_id : string) (s : state) :
  url = String c rest ->
  let req := mkRequest (Some url) (Some d) in
  let s1 := fst (process req task_id s) in
  let run := Thread.process_video_task mkdir E task_id url d s1 in
  snd (process req task_id s) = TaskCreated task_id
  /\ get_status task_id s1 = StatusOf initial_snapshot
  /\ (mkdir (output_dir task_id) = None ->
        snd run = Ret tt
        /\ exists snap, get_status task_id (fst run) = StatusOf snap
                        /\ terminal (snap_status snap) = true)
  /\ (forall e, mkdir (output_dir task_id) = Some e ->
        run = (s1, Raise e)
        /\ get_status task_id (fst run) = StatusOf initial_snapshot)
  /\ (forall other, other <> task_id ->
        get_status other (fst run) = get_status other s).
Proof.
  intros -> req s1 run.
  assert (Hs1 : s1 = submit task_id s) by reflexivity.
  assert (Hstart : get_status task_id s1 = StatusOf initial_snapshot).
  { unfold get_status. rewrite Hs1. simpl. now rewrite lookup_insert_eq. }
  assert (Hother : forall other, other <> task_id ->
            get_status other s1 = get_status other s).
  { intros other Hne. unfold get_status. rewrite Hs1. simpl.
    now rewrite lookup_insert_ne. }
  split; [reflexivity|]. split; [exact Hstart|].
  unfold run, Thread.process_video_task, Thread.init.
  rewrite run_bind.
  destruct (mkdir (output_dir task_id)) as [e|] eqn:Hmk.
  - change (raise e s1) with (s1, @Raise unit e). cbv iota beta.
    split; [discriminate|]. split.
    + intros e' [= <-]. split; [reflexivity|exact Hstart].
    + intros other Hne. now apply Hother.
  - match goal with
    | |- context [modify ?f s1] =>
        change (modify f s1) with (init s1, Ret tt)
    end.
    cbv iota beta.
    destruct (process_video_ends E task_id (String c rest) d (init s1))
      as (s' & snap & Hrun & Hsnap & Hterm).
    split; [|split; [discriminate|]].
    + intros _. rewrite Hrun. split; [reflexivity|].
      exists snap. unfold get_status. simpl. now rewrite Hsnap.
    + intros other Hne. unfold get_status.
      rewrite (process_video_others E task_id (String c rest) d (init s1)
                 other Hne).
      now apply Hother.
Qed.

Lemma submitted_task_reaches_terminal_status_witness :
  get_status "t1"
    (fst (process (mkRequest (Some "url"%string) (Some 65)) "t1"
                  empty_state))
  = StatusOf initial_snapshot.
Proof.
  apply (submitted_task_reaches_terminal_status (fun _ => None)
           (all_succeed 180) "url" "u" "rl" 65 "t1" empty_state).
  reflexivity.
Defined.

(** A request without a usable URL registers nothing, and a duration
    that cannot be converted makes the route fail before the URL is even
    looked at; in both cases the registry and the disk are untouched. *)
Theorem rejected_request_changes_nothing
  (req : process_request) (task_id : string) (s : state) :
  (req_duration req = None -> process req task_id s = (s, ServerError))
  /\ (forall d, req_duration req = Some d ->
        req_url req = None \/ req_url req = Some ""%string ->
        process req task_id s = (s, MissingUrl)).
Proof.
  split.
  - intros He. unfold process. now rewrite He.
  - intros d Hd Hurl. unfold process. rewrite Hd.
    destruct Hurl as [-> | ->]; reflexivity.
Qed.

Lemma rejected_request_changes_nothing_witness :
  process (mkRequest None None) "t1" empty_state = (empty_state, ServerError)
  /\ process (mkRequest (Some ""%string) (Some 65)) "t1" empty_state
     = (empty_state, MissingUrl).
Proof.
  split.
  - apply (rejected_request_changes_nothing (mkRequest None None) "t1"
             empty_state). reflexivity.
  - apply (rejected_request_changes_nothing
             (mkRequest (Some ""%string) (Some 65)) "t1" empty_state
           : _ /\ _) with (d := 65); [reflexivity | now right].
Defined.

(** Every clip name the status route reports once the worker is done
    can be fetched through the download route. *)
Theorem reported_clips_can_be_downloaded
  (E : env) (task_id url : string) (cd : Z) (s : state) snap nm :
  let s' := fst (process_video_task E task_id url cd s) in
  get_status task_id s' = StatusOf snap ->
  In nm (snap_clips snap) ->
  download_clip task_id nm s'
  = FileSent ("clips_output/" ++ task_id ++ "/" ++ nm)%string.
Proof.
  intros s' Hst Hin. unfold get_status in Hst.
  destruct (tasks s' !! task_id) as [snap'|] eqn:Hsnap; [|discriminate].
  injection Hst as ->.
  pose proof (listed_clips_on_disk E task_id url cd s snap nm Hsnap Hin)
    as Hf.
  unfold download_clip.
  assert (Heq : (output_dir task_id ++ "/" ++ nm
                 = "clips_output/" ++ task_id ++ "/" ++ nm)%string).
  { unfold output_dir. apply string_app_assoc. }
  fold s' in Hf. rewrite Heq in Hf.
  now rewrite (bool_decide_eq_true_2 _ Hf).
Qed.

Lemma reported_clips_can_be_downloaded_witness :
  download_clip "t1" "clip_001.mp4"
    (fst (process_video_task (codec_fails_at 1 180) "t1" "url" 65
                             (submit "t1" empty_state)))
  = FileSent "clips_output/t1/clip_001.mp4".
Proof.
  apply (reported_clips_can_be_downloaded (codec_fails_at 1 180) "t1"
           "url" 65 (submit "t1" empty_state)
           (mkSnapshot completed 100 (MsgDone 0) ["clip_001.mp4"%string])).
  - vm_compute. reflexivity.
  - left. reflexivity.
Defined.

(** ** The command-line clipper *)

Section CliLoop.

Variable E : Cli.env.
Variable video_path : string.
Variable clip_duration : Z.
Variable total_duration : Q.

Let req := cli_request video_path clip_duration total_duration.

(** The loop asks for a prefix of the plan, leaves the output of every
    successful request on disk, and hands back the list of outputs only
    if no request failed. *)
Lemma cli_loop_run idxs :
  forall created s,
  let plan := plan_loop idxs clip_duration total_duration in
  let run := Cli.clip_loop E idxs video_path clip_duration total_duration
                           created s in
  exists k new,
    new = map req (firstn k plan)
    /\ Cli.encodes (fst run) = Cli.encodes s ++ new
    /\ (forall x, x ∈ Cli.files (fst run)
                  <-> x ∈ Cli.files s
                      \/ exists c, In c new /\ cli_codec_ok E c = true
                                   /\ x = path_str (Cli.enc_output c))
    /\ ((forallb (cli_codec_ok E) new = true /\ k = length plan
         /\ snd run = Ret (created ++ map Cli.enc_output new))
        \/ (forallb (cli_codec_ok E) new = false
            /\ exists e, snd run = Raise e)).
Proof.
  induction idxs as [|i idxs IH]; intros created s plan run.
  - exists O, []. subst plan run. simpl. rewrite !app_nil_r.
    repeat split; auto.
    intros [H|(c & [] & _)]. exact H.
  - subst plan run. simpl.
    destruct (too_short (start_time i clip_duration)
                (end_time i clip_duration total_duration)) eqn:Hshort;
      [apply IH|].
    set (sg := mkSegment i (start_time i clip_duration)
                 (end_time i clip_duration total_duration)).
    assert (Hreq : Cli.request video_path clip_duration total_duration i
                   = req sg) by reflexivity.
    rewrite Hreq.
    destruct (Cli.write_videofile E (req sg)) as [e|] eqn:Hw.
    + (* the codec fails: leave the loop *)
      exists 1%nat, [req sg]. simpl.
      assert (Hbad : cli_codec_ok E (req sg) = false)
        by (unfold cli_codec_ok; now rewrite Hw).
      repeat split; auto.
      * intros [H|(c & [<-|[]] & Hok & _)]; [exact H | congruence].
      * right. rewrite Hbad. split; [reflexivity | eauto].
    + assert (Hgood : cli_codec_ok E (req sg) = true)
        by (unfold cli_codec_ok; now rewrite Hw).
      destruct (IH (created ++ [Cli.output_path i])
                   (Cli.mkState
                      ({[path_str (Cli.output_path i)]} ∪ Cli.files s)
                      (Cli.encodes s ++ [req sg])))
        as (k & new & Hnew & Henc & Hfiles & Hres).
      exists (S k), (req sg :: new). simpl in *.
      split; [now rewrite Hnew|]. split.
      { now rewrite Henc, <- app_assoc. }
      split.
      { intros x. rewrite Hfiles. split.
        - intros [Hx|(c & Hc & Hok & ->)].
          + apply elem_of_union in Hx as [Hx|Hx]; [|now left].
            apply elem_of_singleton in Hx. right. exists (req sg).
            split; [now left|]. split; [exact Hgood | exact Hx].
          + right. exists c. split; [now right | auto].
        - intros [Hx|(c & [<-|Hc] & Hok & ->)].
          + left. now apply elem_of_union_r.
          + left. apply elem_of_union_l. now apply elem_of_singleton.
          + right. exists c. auto. }
      rewrite Hgood. simpl.
      destruct Hres as [(Hall & Hk & Hret)|(Hall & e & Hraise)].
      * left. split; [exact Hall|]. split; [now rewrite Hk|].
        rewrite Hret, <- app_assoc. reflexivity.
      * right. split; [exact Hall | eauto].
Qed.

End CliLoop.

Lemma cli_cut_run (E : Cli.env) (video_path : string) (cd : Z)
  (s : Cli.state) :
  let run := Cli.cut_video_into_clips E video_path cd s in
  exists new,
    Cli.encodes (fst run) = Cli.encodes s ++ new
    /\ snd run = (if forallb (cli_codec_ok E) new
                  then map Cli.enc_output new else [])
    /\ (forall x, x ∈ Cli.files (fst run)
                  <-> x ∈ Cli.files s
                      \/ exists c, In c new /\ cli_codec_ok E c = true
                                   /\ x = path_str (Cli.enc_output c)).
Proof.
  intros run. subst run. unfold Cli.cut_video_into_clips.
  assert (Hnone : exists new : list Cli.encode_call,
    Cli.encodes s = Cli.encodes s ++ new
    /\ @nil path = (if forallb (cli_codec_ok E) new
                    then map Cli.enc_output new else [])
    /\ (forall x, x ∈ Cli.files s
                  <-> x ∈ Cli.files s
                      \/ exists c, In c new /\ cli_codec_ok E c = true
                                   /\ x = path_str (Cli.enc_output c))).
  { exists []. simpl. rewrite app_nil_r. repeat split; auto.
    intros [H|(c & [] & _)]. exact H. }
  destruct (Cli.open_video E video_path) as [v|e]; [|exact Hnone].
  destruct (num_clips (duration v) cd) as [n|e]; [|exact Hnone].
  destruct (cli_loop_run E video_path cd (duration v) (Py.range n) [] s)
    as (k & new & _ & Henc & Hfiles & Hres).
  destruct (Cli.clip_loop E (Py.range n) video_path cd (duration v) [] s)
    as [s' r].
  simpl in *. exists new.
  destruct Hres as [(-> & _ & ->)|(-> & e & ->)]; simpl;
    (split; [exact Henc|]); (split; [reflexivity | exact Hfiles]).
Qed.

(** Cutting on the command line is all or nothing for the caller but not
    for the disk: the list returned holds the outputs of all requests
    when none failed and is empty as soon as one failed, while the
    output of every request that succeeded stays on disk. *)
Theorem cli_cut_all_or_nothing (E : Cli.env) (video_path : string)
  (cd : Z) (s : Cli.state) :
  let run := Cli.cut_video_into_clips E video_path cd s in
  exists new,
    Cli.encodes (fst run) = Cli.encodes s ++ new
    /\ snd run = (if forallb (cli_codec_ok E) new
                  then map Cli.enc_output new else [])
    /\ (forall c, In c new -> cli_codec_ok E c = true ->
          path_str (Cli.enc_output c) ∈ Cli.files (fst run))
    /\ Cli.files s ⊆ Cli.files (fst run).
Proof.
  intros run.
  destruct (cli_cut_run E video_path cd s) as (new & Henc & Hret & Hfiles).
  fold run in Henc, Hret, Hfiles.
  exists new. repeat split; try assumption.
  - intros c Hc Hok. apply Hfiles. right. exists c. auto.
  - intros x Hx. apply Hfiles. now left.
Qed.

(** [process_video] on the command line returns [None] exactly when the
    download fails, leaving everything as it was; after a download it
    returns what cutting returned and the temporary download is gone,
    unless [os.remove] raises: nothing catches that exception. *)
Theorem cli_process_video_result (E : Cli.env) (url : string) (cd : Z)
  (s : Cli.state) :
  (forall e, Cli.extract_info E url = Raise e ->
     Cli.process_video E url cd s = (s, Ret None))
  /\
  (forall ext title,
     Cli.extract_info E url = Ret (ext, title) ->
     let vp := ("temp_video." ++ ext)%string in
     let cut := Cli.cut_video_into_clips E vp cd
                  (Cli.mkState ({[vp]} ∪ Cli.files s) (Cli.encodes s)) in
     Cli.process_video E url cd s
     = match Cli.os_remove E vp with
       | None => (Cli.mkState (Cli.files (fst cut) ∖ {[vp]})
                              (Cli.encodes (fst cut)),
                  Ret (Some (snd cut)))
       | Some e => (fst cut, Raise e)
       end).
Proof.
  split.
  - intros e Hx. unfold Cli.process_video, Cli.download_video.
    now rewrite Hx.
  - intros ext title Hx vp cut.
    unfold Cli.process_video, Cli.download_video. rewrite Hx.
    fold vp. change (falsy (Some vp)) with false. cbv iota.
    fold cut.
    destruct (cli_cut_run E vp cd
                (Cli.mkState ({[vp]} ∪ Cli.files s) (Cli.encodes s)))
      as (new & _ & _ & Hfiles).
    fold cut in Hfiles.
    assert (Hin : vp ∈ Cli.files (fst cut)).
    { apply Hfiles. left. simpl. apply elem_of_union_l.
      now apply elem_of_singleton. }
    destruct cut as [s2 clips]. simpl in *.
    rewrite (bool_decide_eq_true_2 _ Hin).
    destruct (Cli.os_remove E vp); reflexivity.
Qed.

Lemma cli_process_video_result_witness :
  exists s', Cli.process_video (cli_codec_fails_at 1 180) "url" 65
                               cli_empty_state
             = (s', Ret (Some [])).
Proof.
  eexists.
  rewrite (proj2 (cli_process_video_result (cli_codec_fails_at 1 180)
                    "url" 65 cli_empty_state) "mp4" "title" eq_refl)%string.
  vm_compute. reflexivity.
Defined.

Lemma cli_range_of_plan vp cd total idxs :
  map cli_range (map (cli_request vp cd total) (plan_loop idxs cd total))
  = map (fun sg => (seg_index sg, seg_start sg, seg_end sg))
        (plan_loop idxs cd total).
Proof.
  rewrite map_map. apply map_ext_in. intros sg Hsg.
  apply plan_loop_entry in Hsg as (_ & Hs & He & _).
  unfold cli_range, cli_request, Cli.request. simpl. now rewrite Hs, He.
Qed.

(** When nothing fails, the command-line clipper and the web worker ask
    the codec for the same segments, the planned ones, in the same
    order, and give the outputs the same file names; the command line
    returns exactly these outputs. *)
Theorem clippers_request_same_ranges
  (Ew : env) (Ec : Cli.env) (task_id ext vpc : string) (v : video)
  (tr : transform) (cd : Z) (sw : state) (sc : Cli.state) :
  open_video Ew (source_path task_id ext) = Ret v ->
  resize_to_tiktok_format (size v) = Ret tr ->
  (forall c, write_videofile Ew c = None) ->
  Cli.open_video Ec vpc = Ret v ->
  (forall c, Cli.write_videofile Ec c = None) ->
  cd <> 0 ->
  let web := cut_video_into_clips Ew task_id (source_path task_id ext) cd sw in
  let cli := Cli.cut_video_into_clips Ec vpc cd sc in
  exists plan new_w new_c,
    segment_plan (duration v) cd = Ret plan
    /\ encodes (fst web) = encodes sw ++ new_w
    /\ Cli.encodes (fst cli) = Cli.encodes sc ++ new_c
    /\ map web_range new_w
       = map (fun sg => (seg_index sg, seg_start sg, seg_end sg)) plan
    /\ map cli_range new_c = map web_range new_w
    /\ map (fun c => name (Cli.enc_output c)) new_c
       = map (fun c => name (enc_output c)) new_w
    /\ snd cli = map Cli.enc_output new_c.
Proof.
  intros Hopen Hresize Hcodec Hopen' Hcodec' Hcd web cli.
  set (n := Py.ceil (duration v / inject_Z cd)).
  set (plan := plan_loop (Py.range n) cd (duration v)).
  destruct (cut_clean Ew task_id ext v tr cd Hopen Hresize Hcodec Hcd sw)
    as (sw' & Hweb & _ & Henc_w & _).
  fold n plan in Henc_w.
  assert (Hcli : exists sc',
    cli = (sc', map Cli.enc_output (map (cli_request vpc cd (duration v)) plan))
    /\ Cli.encodes sc'
       = Cli.encodes sc ++ map (cli_request vpc cd (duration v)) plan).
  { subst cli. unfold Cli.cut_video_into_clips. rewrite Hopen'.
    unfold num_clips.
    rewrite Py_truediv_ok by now apply inject_Z_nonzero.
    cbn [mbind outcome_bind mret outcome_ret]. fold n.
    destruct (cli_loop_run Ec vpc cd (duration v) (Py.range n) [] sc)
      as (k & new & Hnew & Henc & _ & Hres).
    fold plan in Hnew, Hres.
    assert (Hall : forallb (cli_codec_ok Ec) new = true).
    { apply forallb_forall. intros c _. unfold cli_codec_ok.
      now rewrite Hcodec'. }
    destruct Hres as [(_ & Hk & Hret)|(Hbad & _)]; [|congruence].
    rewrite Hk, firstn_all in Hnew. subst new.
    destruct (Cli.clip_loop Ec (Py.range n) vpc cd (duration v) [] sc)
      as [sc' r].
    simpl in *. subst r. exists sc'. split; [reflexivity | exact Henc]. }
  destruct Hcli as (sc' & Hcli & Henc_c).
  exists plan,
    (map (fun sg => mkEncode (source_path task_id ext) (seg_index sg)
                      (seg_start sg) (seg_end sg) tr
                      (clip_path task_id (seg_index sg))) plan),
    (map (cli_request vpc cd (duration v)) plan).
  split; [now apply segment_plan_ok|].
  split; [subst web; rewrite Hweb; exact Henc_w|].
  split; [rewrite Hcli; exact Henc_c|].
  split; [now rewrite map_map|].
  split.
  { subst plan. rewrite cli_range_of_plan. now rewrite map_map. }
  split; [now rewrite !map_map | now rewrite Hcli].
Qed.

Lemma clippers_request_same_ranges_witness :
  exists plan new_w new_c,
    segment_plan 180 65 = Ret plan
    /\ encodes (fst (cut_video_into_clips (all_succeed 180) "t1"
                       (source_path "t1" "mp4") 65 empty_state))
       = new_w
    /\ Cli.encodes (fst (Cli.cut_video_into_clips (cli_all_succeed 180)
                           "temp_video.mp4" 65 cli_empty_state))
       = new_c
    /\ map cli_range new_c = map web_range new_w.
Proof.
  destruct (clippers_request_same_ranges (all_succeed 180)
              (cli_all_succeed 180) "t1" "mp4" "temp_video.mp4"
              (mkVideo 180 (1920, 1080))
              (mkTransform (CropX 656 607) (1080, 1920)) 65
              empty_state cli_empty_state
              eq_refl eq_refl (fun _ => eq_refl) eq_refl
              (fun _ => eq_refl) ltac:(lia))
    as (plan & new_w & new_c & Hp & Hw & Hc & _ & Hsame & _).
  exists plan, new_w, new_c. repeat split; assumption.
Defined.

(** ** Every trace of registry writes *)




Section Traces.

Variable E : env.
Variable task_id : string.



End Traces.


